(** * logfire.experimental.annotations

    A shallow embedding of [src/logfire/experimental/annotations.py] and the
    properties its specification states about it.

    The module glues two libraries together: the OpenTelemetry trace-context
    propagator (serialising a span context to a [traceparent] header and back)
    and the logfire emitter (recording one structured event).  Python
    dictionaries are finite maps ([gmap string _]); [{**a, **b}] and
    [a.update(b)] are the right-biased merge, which is [b ∪ a] for stdpp's
    left-biased union.  Exceptions are an explicit result type, and the effects
    of the module (reading the random sources, emitting a span) are threaded
    through a state-and-exception monad over a [World]. *)

From Stdlib Require Import ZArith String Ascii List Floats Lia.
From stdpp Require Import gmap strings pretty.

Set Warnings "-inexact-float".
Set Default Proof Using "Type".

(** ** Python values *)

(** The values that flow through the module: feedback values are
    [int | float | bool | str]; attribute values are [Any], of which the
    scalars below are the ones the module creates or inspects. *)
Inductive Any : Type :=
  | VNone
  | VBool (b : bool)
  | VInt (z : Z)
  | VFloat (f : float)
  | VStr (s : string).

(** Truthiness, as used by [if extra:] and [if comment:]. *)
Definition truthy_str (s : string) : bool :=
  match s with EmptyString => false | String _ _ => true end.

Definition truthy_dict {V} (d : gmap string V) : bool :=
  bool_decide (d ≠ ∅).

(** ** Exceptions *)

Inductive exn : Type :=
  | AssertionError
  | TypeError
  | ValueError.

Inductive result (A : Type) : Type :=
  | Ok (a : A)
  | Raise (e : exn).
Arguments Ok {A} a.
Arguments Raise {A} e.

(** [sys.get_int_max_str_digits()], at the interpreter's default. *)
Definition int_max_str_digits : Z := 4300.

(** [repr].  Booleans and [None] print as Python prints them.  An integer
    prints in decimal, unless it has more than [int_max_str_digits] digits
    (the sign not counted): the conversion then raises [ValueError].  The
    shortest-round-trip printing of floats and the quoting of strings belong
    to the interpreter and are taken as parameters; neither raises. *)
Section Repr.
Variable float_repr : float → string.
Variable str_repr : string → string.

Definition repr (v : Any) : result string :=
  match v with
  | VNone => Ok "None"
  | VBool true => Ok "True"
  | VBool false => Ok "False"
  | VInt z =>
      if (10 ^ int_max_str_digits <=? Z.abs z)%Z
      then Raise ValueError
      else Ok (pretty z)
  | VFloat f => Ok (float_repr f)
  | VStr s => Ok (str_repr s)
  end.
End Repr.

(** ** OpenTelemetry: span contexts, contexts, carriers, propagators *)

Record SpanContext : Type := mkSpanContext {
  trace_id : Z;
  span_id : Z;
  is_remote : bool;
  trace_flags : Z;
  (** the trace state, kept in its header form; [""] is the empty state *)
  trace_state : string
}.

Global Instance SpanContext_eq_dec : EqDecision SpanContext.
Proof. solve_decision. Defined.

Definition INVALID_TRACE_ID : Z := 0.
Definition INVALID_SPAN_ID : Z := 0.

Definition INVALID_SPAN_CONTEXT : SpanContext :=
  mkSpanContext INVALID_TRACE_ID INVALID_SPAN_ID false 0 "".

(** [SpanContext.is_valid]: both identifiers are non-zero and fit their
    widths (128 and 64 bits). *)
Definition is_valid (sc : SpanContext) : Prop :=
  (0 < trace_id sc < 2 ^ 128)%Z ∧ (0 < span_id sc < 2 ^ 64)%Z.

(** A span, as far as this module reads it: [get_span_context()]. *)
Record Span : Type := NonRecordingSpan { get_span_context : SpanContext }.

Definition INVALID_SPAN : Span := NonRecordingSpan INVALID_SPAN_CONTEXT.

(** logfire's wrapper; [_span] is [None] until the span is started. *)
Record LogfireSpan : Type := mkLogfireSpan { _span : option Span }.

(** A context holds at most one current span. *)
Definition Context : Type := option Span.

Definition set_span_in_context (span : Span) : Context := Some span.

Definition get_current_span (context : Context) : Span :=
  match context with
  | Some span => span
  | None => INVALID_SPAN
  end.

(** The text-map propagator interface. *)
Record TextMapPropagator : Type := mkPropagator {
  fields : gset string;
  inject : gmap string string → Context → gmap string string;
  extract : gmap string string → Context
}.

(** ** The W3C trace-context propagator

    [TraceContextTextMapPropagator] of the OpenTelemetry API, the propagator
    the module instantiates.  Header strings are handled as lists of
    characters. *)
Module W3C.

Definition _TRACEPARENT_HEADER_NAME : string := "traceparent".
Definition _TRACESTATE_HEADER_NAME : string := "tracestate".

(** *** Formatting: [format(n, "0<width>x")] *)

Definition hex_alphabet : list ascii :=
  list_ascii_of_string "0123456789abcdef".

Definition hex_digit (d : Z) : ascii :=
  nth (Z.to_nat d) hex_alphabet "0"%char.

(** The [n] low-order hexadecimal digits of [z], most significant first. *)
Fixpoint hex_fixed (n : nat) (z : Z) : list ascii :=
  match n with
  | O => []
  | S n' => hex_fixed n' (z / 16) ++ [hex_digit (z mod 16)]
  end.

(** Number of hexadecimal digits of a non-negative integer. *)
Definition hex_len (z : Z) : nat := Z.to_nat (Z.log2 z / 4 + 1).

(** Zero padding is a minimum width: wider numbers keep all their digits,
    and the sign counts towards the width. *)
Definition format_hex (width : nat) (z : Z) : list ascii :=
  if (z <? 0)%Z
  then "-"%char :: hex_fixed (Nat.max (width - 1) (hex_len (- z))) (- z)
  else hex_fixed (Nat.max width (hex_len z)) z.

Definition format_trace_id (trace_id : Z) : list ascii := format_hex 32 trace_id.
Definition format_span_id (span_id : Z) : list ascii := format_hex 16 span_id.

Definition traceparent_string (sc : SpanContext) : string :=
  string_of_list_ascii
    (list_ascii_of_string "00-" ++ format_trace_id (trace_id sc)
     ++ "-"%char :: format_span_id (span_id sc)
     ++ "-"%char :: format_hex 2 (trace_flags sc)).

Definition inject (carrier : gmap string string) (context : Context)
  : gmap string string :=
  let span_context := get_span_context (get_current_span context) in
  if decide (span_context = INVALID_SPAN_CONTEXT) then carrier
  else
    let carrier :=
      <[_TRACEPARENT_HEADER_NAME := traceparent_string span_context]> carrier in
    if truthy_str (trace_state span_context)
    then <[_TRACESTATE_HEADER_NAME := trace_state span_context]> carrier
    else carrier.

(** *** Parsing: the header regular expression

    The expression reads: start of input, blanks (space or tab), a group of
    2 lowercase hexadecimal digits, a dash, a group of 32, a dash, a group
    of 16, a dash, a group of 2, an optional fifth group made of a dash and
    any characters but newline, blanks, end of input (where the end may
    stand before one final newline).  Every choice point of the expression
    is decided by the next character, so the matcher below needs no
    backtracking. *)

Definition hex_value (c : ascii) : option Z :=
  let n := Z.of_N (N_of_ascii c) in
  if (48 <=? n)%Z && (n <=? 57)%Z then Some (n - 48)%Z
  else if (97 <=? n)%Z && (n <=? 102)%Z then Some (n - 87)%Z
  else None.

Definition is_hex (c : ascii) : bool :=
  match hex_value c with Some _ => true | None => false end.

Definition is_blank (c : ascii) : bool :=
  (c =? " ")%char || (c =? "009")%char.

Definition is_newline (c : ascii) : bool := (c =? "010")%char.

Fixpoint skip_blanks (s : list ascii) : list ascii :=
  match s with
  | c :: r => if is_blank c then skip_blanks r else s
  | [] => []
  end.

(** [[0-9a-f]{n}]: the group and the rest of the input. *)
Fixpoint take_hex (n : nat) (s : list ascii) : option (list ascii * list ascii) :=
  match n with
  | O => Some ([], s)
  | S n' =>
      match s with
      | c :: r =>
          if is_hex c
          then '(g, rest) ← take_hex n' r; Some (c :: g, rest)
          else None
      | [] => None
      end
  end.

Definition expect_dash (s : list ascii) : option (list ascii) :=
  match s with
  | c :: r => if (c =? "-")%char then Some r else None
  | [] => None
  end.

(** Any characters up to the end: no newline, except that the end also
    matches before a final one. *)
Fixpoint dot_star_eol (s : list ascii) : bool :=
  match s with
  | [] => true
  | c :: r =>
      match r with
      | [] => true
      | _ :: _ => negb (is_newline c) && dot_star_eol r
      end
  end.

(** Blanks up to the end. *)
Fixpoint blanks_eol (s : list ascii) : bool :=
  match s with
  | [] => true
  | c :: r =>
      match r with
      | [] => is_blank c || is_newline c
      | _ :: _ => is_blank c && blanks_eol r
      end
  end.

(** The optional fifth group, the blanks and the end of input: on a match,
    whether the fifth group took part. *)
Definition match_tail (s : list ascii) : option bool :=
  match s with
  | c :: r =>
      if (c =? "-")%char
      then (if dot_star_eol r then Some true else None)
      else (if blanks_eol s then Some false else None)
  | [] => Some false
  end.

Record traceparent_groups : Type := mkGroups {
  g_version : list ascii;
  g_trace_id : list ascii;
  g_span_id : list ascii;
  g_trace_flags : list ascii;
  g_rest : bool
}.

Definition match_traceparent (header : list ascii) : option traceparent_groups :=
  '(version, s) ← take_hex 2 (skip_blanks header);
  s ← expect_dash s;
  '(tid, s) ← take_hex 32 s;
  s ← expect_dash s;
  '(sid, s) ← take_hex 16 s;
  s ← expect_dash s;
  '(flags, s) ← take_hex 2 s;
  g5 ← match_tail s;
  Some (mkGroups version tid sid flags g5).

(** [int(group, 16)], applied to groups of lowercase hexadecimal digits. *)
Definition int16 (s : list ascii) : Z :=
  fold_left (λ acc c, acc * 16 + default 0 (hex_value c))%Z s 0%Z.

Definition zeros (n : nat) : list ascii := repeat "0"%char n.

Definition extract (carrier : gmap string string) : Context :=
  let context : Context := None in
  match carrier !! _TRACEPARENT_HEADER_NAME with
  | None => context
  | Some header =>
      match match_traceparent (list_ascii_of_string header) with
      | None => context
      | Some m =>
          if bool_decide (g_trace_id m = zeros 32 ∨ g_span_id m = zeros 16)
          then context
          else if bool_decide (g_version m = list_ascii_of_string "00") && g_rest m
          then context
          else if bool_decide (g_version m = list_ascii_of_string "ff")
          then context
          else
            let tracestate := default "" (carrier !! _TRACESTATE_HEADER_NAME) in
            set_span_in_context
              (NonRecordingSpan
                 (mkSpanContext (int16 (g_trace_id m)) (int16 (g_span_id m))
                    true (int16 (g_trace_flags m)) tracestate))
      end
  end.

Definition TraceContextTextMapPropagator : TextMapPropagator :=
  mkPropagator {[ _TRACEPARENT_HEADER_NAME; _TRACESTATE_HEADER_NAME ]} inject extract.

End W3C.

(** ** The outside world: random sources and the tracing backend *)

(** What the random sources answer during one run of [_random_attrs], which
    calls each of them once: [uuid.uuid4()], [random.choice], [random.randint],
    [time.time()], [random.getrandbits] and [random.random()].  The answers of
    the functions that take arguments depend on those arguments. *)
Record Draw : Type := mkDraw {
  uuid_uuid4 : string;
  random_choice : list string → string;
  random_randint : Z → Z → Z;
  time_time : float;
  random_getrandbits : Z → Z;
  random_random : float
}.

(** The documented contract of [random.randint(a, b)]: an integer [N] with
    [a <= N <= b]. *)
Definition randint_contract (d : Draw) : Prop :=
  ∀ a b : Z, (a ≤ b)%Z → (a ≤ random_randint d a b ≤ b)%Z.

(** One event handed to the backend: the logger's scope suffix and level, the
    context attached around the call, the event name (the message template)
    and the keyword arguments. *)
Record Emission : Type := mkEmission {
  em_scope_suffix : string;
  em_level : string;
  em_parent : Context;
  em_name : string;
  em_attributes : gmap string Any
}.

(** The world: the answers the random sources will give to the successive
    runs of [_random_attrs], how many of them have been used, and the events
    emitted so far, oldest first. *)
Record World : Type := mkWorld {
  entropy : nat → Draw;
  draws : nat;
  emitted : list Emission
}.

(** ** The state-and-exception monad *)

Definition M (A : Type) : Type := World → result A * World.

Global Instance M_ret : MRet M := λ A a w, (Ok a, w).

Global Instance M_bind : MBind M := λ A B f m w,
  match m w with
  | (Ok a, w') => f a w'
  | (Raise e, w') => (Raise e, w')
  end.

Definition raise {A} (e : exn) : M A := λ w, (Raise e, w).

(** A computation that touches nothing in the world. *)
Definition of_result {A} (r : result A) : M A := λ w, (r, w).

(** The [assert] statement. *)
Definition assert_ (cond : bool) : M unit :=
  if cond then mret () else raise AssertionError.

(** Take the next answers of the random sources. *)
Definition draw : M Draw := λ w,
  (Ok (entropy w (draws w)), mkWorld (entropy w) (S (draws w)) (emitted w)).

(** [logger.info(msg_template, **kwargs1, **kwargs2)] under an attached
    context.  A key present in both mappings makes the call itself fail with
    [TypeError] (multiple values for a keyword argument) before the logger
    runs; otherwise one event is emitted. *)
Definition logger_info (scope_suffix : string) (context : Context)
    (msg_template : string) (kwargs1 kwargs2 : gmap string Any) : M unit := λ w,
  if decide (kwargs1 ##ₘ kwargs2)
  then (Ok (),
        mkWorld (entropy w) (draws w)
          (emitted w ++ [mkEmission scope_suffix "info" context msg_template
                           (kwargs1 ∪ kwargs2)]))
  else (Raise TypeError, w).

(** [str.lower()] on ASCII letters; other characters are left as they are. *)
Definition ascii_lower (c : ascii) : ascii :=
  let n := N_of_ascii c in
  if (65 <=? n)%N && (n <=? 90)%N then ascii_of_N (n + 32) else c.

Fixpoint lower (s : string) : string :=
  match s with
  | EmptyString => EmptyString
  | String c r => String (ascii_lower c) (lower r)
  end.

(** ** The module *)

(** What [get_traceparent] accepts: [Span | logfire.LogfireSpan]. *)
Inductive SpanLike : Type :=
  | OfSpan (span : Span)
  | OfLogfireSpan (span : LogfireSpan).

Definition emojis : list string :=
  ["✨"; "🔥"; "🌈"; "🛰️"; "🦄"; "💫"; "🤖"; "🍀"; "☕"].

Section Annotations.

(** The process environment at import time. *)
Variable environ : gmap string string.

(** [logfire._internal.constants] *)
Variable ATTRIBUTES_MESSAGE_KEY : string.
Variable ATTRIBUTES_SPAN_TYPE_KEY : string.

Variable TRACEPARENT_PROPAGATOR : TextMapPropagator.

Variable float_repr : float → string.
Variable str_repr : string → string.

Definition TRACEPARENT_NAME : string := "traceparent".

(** The module-level [assert TRACEPARENT_NAME in TRACEPARENT_PROPAGATOR.fields]. *)
Definition import_assertion : bool :=
  bool_decide (TRACEPARENT_NAME ∈ fields TRACEPARENT_PROPAGATOR).

(** [feedback_logfire = logfire.with_settings(custom_scope_suffix='feedback')] *)
Definition feedback_logfire_info : Context → string →
    gmap string Any → gmap string Any → M unit :=
  logger_info "feedback".

Definition RANDOMIZE : bool :=
  negb (bool_decide
          (lower (default "true" (environ !! "LOGFIRE_RANDOMIZE"))
             ∈ ["0"; "false"; "no"])).

Definition _random_attrs : M (gmap string Any) :=
  if negb RANDOMIZE then mret ∅
  else
    d ← draw;
    let attrs : gmap string Any :=
      <["x-random-seed" := VInt (random_getrandbits d 32)]>
        (<["x-random-ts" := VFloat (time_time d)]>
           (<["x-random-power" := VInt (random_randint d 1 9000)]>
              (<["x-random-emoji" := VStr (random_choice d emojis)]>
                 {[ "x-random-uuid" := VStr (uuid_uuid4 d) ]}))) in
    let attrs :=
      if (random_random d <? 0.05)%float
      then <["x-random-easter-egg" := VStr "may_the_force_be_with_you"]> attrs
      else attrs in
    mret attrs.

Definition get_traceparent (span : SpanLike) : result string :=
  match
    match span with
    | OfSpan span => Ok span
    | OfLogfireSpan span =>
        match _span span with
        | Some real_span => Ok real_span
        | None => Raise AssertionError
        end
    end
  with
  | Raise e => Raise e
  | Ok real_span =>
      let context := set_span_in_context real_span in
      let carrier := inject TRACEPARENT_PROPAGATOR ∅ context in
      Ok (default "" (carrier !! TRACEPARENT_NAME))
  end.

Definition raw_annotate_span (traceparent span_name message : string)
    (attributes : gmap string Any) : M unit :=
  random_attrs ← _random_attrs;
  let decorated_attributes := random_attrs ∪ attributes in
  let context :=
    extract TRACEPARENT_PROPAGATOR {[ TRACEPARENT_NAME := traceparent ]} in
  feedback_logfire_info context span_name decorated_attributes
    (<[ATTRIBUTES_SPAN_TYPE_KEY := VStr "annotation"]>
       {[ ATTRIBUTES_MESSAGE_KEY := VStr message ]}).

Definition record_feedback (traceparent name : string) (value : Any)
    (comment : option string) (extra : option (gmap string Any)) : M unit :=
  let attributes : gmap string Any :=
    <[name := value]> {[ "logfire.feedback.name" := VStr name ]} in
  attributes ←
    match extra with
    | Some extra =>
        if truthy_dict extra
        then
          _ ← assert_ (negb (bool_decide (is_Some (extra !! name))));
          mret (extra ∪ attributes)
        else mret attributes
    | None => mret attributes
    end;
  let attributes :=
    match comment with
    | Some comment =>
        if truthy_str comment
        then <["logfire.feedback.comment" := VStr comment]> attributes
        else attributes
    | None => attributes
    end in
  random_attrs ← _random_attrs;
  let attributes := random_attrs ∪ attributes in
  value_repr ← of_result (repr float_repr str_repr value);
  raw_annotate_span traceparent
    ("feedback: " +:+ name)
    ("feedback: " +:+ name +:+ " = " +:+ value_repr)
    attributes.

End Annotations.

(** ** Vocabulary of the properties *)

(** The decorative attributes [_random_attrs] hands out in world [w], and the
    world it leaves behind. *)
Definition decoration (environ : gmap string string) (w : World) : gmap string Any :=
  match (_random_attrs environ w).1 with
  | Ok attrs => attrs
  | Raise _ => ∅
  end.

Definition after_draw (environ : gmap string string) (w : World) : World :=
  (_random_attrs environ w).2.

(** The keys [_random_attrs] may write. *)
Definition decorative_keys : gset string :=
  {[ "x-random-uuid"; "x-random-emoji"; "x-random-power"; "x-random-ts";
     "x-random-seed"; "x-random-easter-egg" ]}.

(** The attributes of an emitted event without the two reserved entries (the
    message and the span type) that [raw_annotate_span] adds to every event. *)
Definition non_reserved (ATTRIBUTES_MESSAGE_KEY ATTRIBUTES_SPAN_TYPE_KEY : string)
    (attributes : gmap string Any) : gmap string Any :=
  delete ATTRIBUTES_SPAN_TYPE_KEY (delete ATTRIBUTES_MESSAGE_KEY attributes).

(** The raw span behind a [get_traceparent] argument, if there is one. *)
Definition underlying (span : SpanLike) : option Span :=
  match span with
  | OfSpan s => Some s
  | OfLogfireSpan l => _span l
  end.

(** A live span: a valid span context whose flags fit the one byte the
    header gives them. *)
Definition live (s : Span) : Prop :=
  is_valid (get_span_context s) ∧ (0 ≤ trace_flags (get_span_context s) < 256)%Z.

(** The trace id a context carries. *)
Definition context_trace_id (context : Context) : Z :=
  trace_id (get_span_context (get_current_span context)).

(** The attributes [record_feedback] has assembled from its arguments when it
    reaches the decoration step (the assertion on [extra] apart). *)
Definition feedback_attributes (name : string) (value : Any)
    (comment : option string) (extra : option (gmap string Any)) : gmap string Any :=
  let attributes : gmap string Any :=
    default ∅ extra ∪ <[name := value]> {[ "logfire.feedback.name" := VStr name ]} in
  match comment with
  | Some c =>
      if truthy_str c
      then <["logfire.feedback.comment" := VStr c]> attributes
      else attributes
  | None => attributes
  end.

(** The assertion of [record_feedback] holds: [extra] does not bind [name]. *)
Definition extra_admissible (name : string) (extra : option (gmap string Any)) : Prop :=
  ∀ x, extra = Some x → x !! name = None.

(** The two reserved entries, the event [raw_annotate_span] hands to the
    backend for given decorated attributes, and the world after an emission. *)
Definition reserved_attributes (ATTRIBUTES_MESSAGE_KEY ATTRIBUTES_SPAN_TYPE_KEY : string)
    (message : string) : gmap string Any :=
  <[ATTRIBUTES_SPAN_TYPE_KEY := VStr "annotation"]>
    {[ ATTRIBUTES_MESSAGE_KEY := VStr message ]}.

Definition annotation_event (ATTRIBUTES_MESSAGE_KEY ATTRIBUTES_SPAN_TYPE_KEY : string)
    (TRACEPARENT_PROPAGATOR : TextMapPropagator)
    (traceparent span_name message : string)
    (decorated_attributes : gmap string Any) : Emission :=
  mkEmission "feedback" "info"
    (extract TRACEPARENT_PROPAGATOR {[ TRACEPARENT_NAME := traceparent ]})
    span_name
    (decorated_attributes
       ∪ reserved_attributes ATTRIBUTES_MESSAGE_KEY ATTRIBUTES_SPAN_TYPE_KEY message).

Definition emit (e : Emission) (w : World) : World :=
  mkWorld (entropy w) (draws w) (emitted w ++ [e]).

(** The attributes [record_feedback] passes on to the emitter in world [w]:
    the assembled ones under its own decoration and, on top, the decoration
    [raw_annotate_span] draws next. *)
Definition feedback_decorated (environ : gmap string string) (name : string)
    (value : Any) (comment : option string) (extra : option (gmap string Any))
    (w : World) : gmap string Any :=
  decoration environ (after_draw environ w)
    ∪ (decoration environ w ∪ feedback_attributes name value comment extra).

(** No key of [attributes] is one of the two reserved keys. *)
Definition unreserved (ATTRIBUTES_MESSAGE_KEY ATTRIBUTES_SPAN_TYPE_KEY : string)
    (attributes : gmap string Any) : Prop :=
  attributes !! ATTRIBUTES_MESSAGE_KEY = None
  ∧ attributes !! ATTRIBUTES_SPAN_TYPE_KEY = None.

(** The values the two reserved keys have in the published logfire package,
    and sample answers of the random sources, for closed examples. *)
Definition upstream_message_key : string := "logfire.msg".
Definition upstream_span_type_key : string := "logfire.span_type".

Definition sample_draw : Draw :=
  mkDraw "6f1c2d9e-0b7a-4c55-9e1d-3a2b4c5d6e7f" (λ seq, default "" (head seq))
    (λ a b, Z.max a (Z.min b 4242)) 1762214400%float (λ k, 0%Z) 0.5%float.

Definition lucky_draw : Draw :=
  mkDraw "0e9d8c7b-6a5f-4e3d-8c2b-1a0f9e8d7c6b" (λ seq, default "" (last seq))
    (λ a b, b) 1762214401%float (λ k, 1%Z) 0.01%float.

Definition sample_world : World :=
  mkWorld (λ n, if Nat.even n then sample_draw else lucky_draw) 0 [].

(** Printings of the floats and strings the examples use. *)
Definition sample_float_repr (f : float) : string :=
  if (f =? 0.9)%float then "0.9"
  else if (f =? 0.5)%float then "0.5"
  else "0.0".

Definition sample_str_repr (s : string) : string := "'" +:+ s +:+ "'".

Definition sample_span : Span :=
  NonRecordingSpan
    (mkSpanContext 0x0af7651916cd43dd8448eb211c80319c 0xb7ad6b7169203331
       false 1 "").

Definition sample_traceparent : string :=
  "00-0af7651916cd43dd8448eb211c80319c-b7ad6b7169203331-01".

Definition randomize_on : gmap string string := ∅.
Definition randomize_off : gmap string string := {[ "LOGFIRE_RANDOMIZE" := "False" ]}.

(** The documented contracts of [random.choice(seq)], an element of a
    non-empty sequence, and of [random.getrandbits(k)], a non-negative integer
    of [k] random bits. *)
Definition choice_contract (d : Draw) : Prop :=
  ∀ seq : list string, seq ≠ [] → random_choice d seq ∈ seq.

Definition getrandbits_contract (d : Draw) : Prop :=
  ∀ k : Z, (0 ≤ k)%Z → (0 ≤ random_getrandbits d k < 2 ^ k)%Z.

(** The five keys every decoration carries. *)
Definition base_decorative_keys : gset string :=
  {[ "x-random-uuid"; "x-random-emoji"; "x-random-power"; "x-random-ts";
     "x-random-seed" ]}.

(** A single round of answers produces the easter egg. *)
Definition easter_egg (d : Draw) : bool := (random_random d <? 0.05)%float.

(** The world [w] with the random sources set to answer [d1] to the next
    round and [d2] to every later one. *)
Definition two_draws (d1 d2 : Draw) (w : World) : World :=
  mkWorld (λ n, if decide (n = draws w) then d1 else d2) (draws w) (emitted w).

(** Whether a run started in world [w] has added exactly one span and that
    span binds the key [k]. *)
Definition emits_key (k : string) (w : World) (run : result unit * World) : bool :=
  match drop (length (emitted w)) (emitted run.2) with
  | [e] => bool_decide (is_Some (em_attributes e !! k))
  | _ => false
  end.

(** * Properties *)

(** ** The monad and the random sources *)

Lemma bind_ok {A B} (m : M A) (f : A → M B) w a w' :
  m w = (Ok a, w') → (m ≫= f) w = f a w'.
Proof. intros H. unfold mbind, M_bind. by rewrite H. Qed.

Lemma bind_raise {A B} (m : M A) (f : A → M B) w e w' :
  m w = (Raise e, w') → (m ≫= f) w = (Raise e, w').
Proof. intros H. unfold mbind, M_bind. by rewrite H. Qed.

(** Unfold one layer of monadic plumbing. *)
Ltac run_M := unfold mbind, M_bind, mret, M_ret, draw, raise; cbn.

Lemma RANDOMIZE_default : RANDOMIZE randomize_on = true.
Proof. reflexivity. Qed.

Lemma RANDOMIZE_disabled : RANDOMIZE randomize_off = false.
Proof. reflexivity. Qed.

Section RandomAttrs.
Context (environ : gmap string string).

Lemma _random_attrs_run w :
  _random_attrs environ w = (Ok (decoration environ w), after_draw environ w).
Proof.
  unfold decoration, after_draw, _random_attrs.
  destruct (RANDOMIZE environ); reflexivity.
Qed.

Lemma decoration_off w : RANDOMIZE environ = false → decoration environ w = ∅.
Proof. intros H. unfold decoration, _random_attrs. by rewrite H. Qed.

Lemma after_draw_off w : RANDOMIZE environ = false → after_draw environ w = w.
Proof. intros H. unfold after_draw, _random_attrs. by rewrite H. Qed.

Lemma after_draw_on w :
  RANDOMIZE environ = true →
  after_draw environ w = mkWorld (entropy w) (S (draws w)) (emitted w).
Proof. intros H. unfold after_draw, _random_attrs. by rewrite H. Qed.

Lemma after_draw_emitted w : emitted (after_draw environ w) = emitted w.
Proof. unfold after_draw, _random_attrs. by destruct (RANDOMIZE environ). Qed.

Lemma after_draw_entropy w : entropy (after_draw environ w) = entropy w.
Proof. unfold after_draw, _random_attrs. by destruct (RANDOMIZE environ). Qed.

Lemma decoration_power w :
  RANDOMIZE environ = true →
  decoration environ w !! "x-random-power"
  = Some (VInt (random_randint (entropy w (draws w)) 1 9000)).
Proof.
  intros H. unfold decoration, _random_attrs. rewrite H. run_M.
  by destruct (_ <? _)%float; simplify_map_eq.
Qed.

Lemma decoration_easter_egg w :
  decoration environ w !! "x-random-easter-egg"
  = if RANDOMIZE environ && (random_random (entropy w (draws w)) <? 0.05)%float
    then Some (VStr "may_the_force_be_with_you") else None.
Proof.
  unfold decoration, _random_attrs. destruct (RANDOMIZE environ); [|done]. run_M.
  by destruct (_ <? _)%float; simplify_map_eq.
Qed.

Lemma decoration_keys w k :
  is_Some (decoration environ w !! k) → k ∈ decorative_keys.
Proof.
  unfold decoration, _random_attrs, decorative_keys.
  destruct (RANDOMIZE environ); run_M; [|by intros [? ?]].
  destruct (_ <? _)%float; intros [v Hv];
    repeat (apply lookup_insert_Some in Hv as [[<- _]|[_ Hv]]; [set_solver|]);
    apply lookup_singleton_Some in Hv as [<- _]; set_solver.
Qed.

Lemma decoration_fresh w k : k ∉ decorative_keys → decoration environ w !! k = None.
Proof.
  intros Hk. apply eq_None_not_Some. intros H. by apply Hk, (decoration_keys w).
Qed.
End RandomAttrs.

(** ** Counting pairs of independent draws *)

Lemma count_pairs_both {A} (h : A → bool) (l l' : list A) :
  length (List.filter (λ p, h p.1 && h p.2) (list_prod l l'))
  = length (List.filter h l) * length (List.filter h l').
Proof.
  induction l as [|a l IH]; [done|].
  cbn [list_prod]. rewrite List.filter_app, length_app, IH.
  rewrite List.filter_map_swap, length_map.
  destruct (h a) eqn:Ha.
  - rewrite (List.filter_ext _ h) by (intros b; cbn; by rewrite Ha).
    cbn [List.filter]. rewrite Ha. cbn [length]. lia.
  - rewrite (List.filter_ext _ (λ _, false)) by (intros b; cbn; by rewrite Ha).
    assert (List.filter (λ _ : A, false) l' = []) as ->
      by (clear; induction l'; done).
    cbn [List.filter]. rewrite Ha. cbn [length]. lia.
Qed.

(** Among the pairs drawn from a population, those with a hit on either
    side are all the pairs but the ones that miss on both sides. *)
Lemma count_pairs_either {A} (f : A → bool) (l : list A) :
  length (List.filter (λ p, f p.1 || f p.2) (list_prod l l))
  + length (List.filter (λ a, negb (f a)) l)
    * length (List.filter (λ a, negb (f a)) l)
  = length l * length l.
Proof.
  rewrite <-(count_pairs_both (λ a, negb (f a))), <-(List.length_prod l l).
  rewrite <-(List.filter_length (λ p, f p.1 || f p.2) (list_prod l l)).
  f_equal. f_equal. apply List.filter_ext. intros [a b]. cbn. by rewrite negb_orb.
Qed.

(** ** Printing integers *)

Lemma repr_int_printable (float_repr : float → string)
    (str_repr : string → string) z :
  (Z.abs z < 10)%Z →
  repr float_repr str_repr (VInt z) = Ok (pretty z).
Proof.
  intros Hz. cbn [repr].
  assert (10 ^ 1 ≤ 10 ^ int_max_str_digits)%Z as Hpow
    by (apply Z.pow_le_mono_r; unfold int_max_str_digits; lia).
  rewrite Z.pow_1_r in Hpow.
  rewrite (proj2 (Z.leb_gt _ _)); [reflexivity|]. lia.
Qed.

Lemma repr_int_too_long (float_repr : float → string)
    (str_repr : string → string) :
  repr float_repr str_repr (VInt (10 ^ 4300)) = Raise ValueError.
Proof.
  cbn [repr]. change int_max_str_digits with 4300%Z.
  rewrite Z.abs_eq by (apply Z.pow_nonneg; lia).
  rewrite Z.leb_refl. reflexivity.
Qed.

(** ** The annotator and the feedback recorder, step by step *)

Section Annotator.
Context (environ : gmap string string).
Context (ATTRIBUTES_MESSAGE_KEY ATTRIBUTES_SPAN_TYPE_KEY : string).
Context (TRACEPARENT_PROPAGATOR : TextMapPropagator).
Context (float_repr : float → string) (str_repr : string → string).

Local Abbreviation reserved :=
  (reserved_attributes ATTRIBUTES_MESSAGE_KEY ATTRIBUTES_SPAN_TYPE_KEY).
Local Abbreviation event :=
  (annotation_event ATTRIBUTES_MESSAGE_KEY ATTRIBUTES_SPAN_TYPE_KEY
     TRACEPARENT_PROPAGATOR).
Local Abbreviation annotate :=
  (raw_annotate_span environ ATTRIBUTES_MESSAGE_KEY ATTRIBUTES_SPAN_TYPE_KEY
     TRACEPARENT_PROPAGATOR).

Lemma reserved_disjoint (attributes : gmap string Any) message :
  attributes ##ₘ reserved message ↔
  attributes !! ATTRIBUTES_MESSAGE_KEY = None
  ∧ attributes !! ATTRIBUTES_SPAN_TYPE_KEY = None.
Proof.
  unfold reserved_attributes.
  rewrite map_disjoint_insert_r, map_disjoint_singleton_r.
  split; intros [H1 H2]; exact (conj H2 H1).
Qed.

Lemma reserved_message message :
  ATTRIBUTES_MESSAGE_KEY ≠ ATTRIBUTES_SPAN_TYPE_KEY →
  reserved message !! ATTRIBUTES_MESSAGE_KEY = Some (VStr message).
Proof. intros. unfold reserved_attributes. by simplify_map_eq. Qed.

Lemma reserved_span_type message :
  reserved message !! ATTRIBUTES_SPAN_TYPE_KEY = Some (VStr "annotation").
Proof. unfold reserved_attributes. by simplify_map_eq. Qed.

Lemma reserved_other message k :
  k ≠ ATTRIBUTES_MESSAGE_KEY → k ≠ ATTRIBUTES_SPAN_TYPE_KEY →
  reserved message !! k = None.
Proof. intros. unfold reserved_attributes. by simplify_map_eq. Qed.

Lemma non_reserved_event (attributes : gmap string Any) message :
  attributes ##ₘ reserved message →
  non_reserved ATTRIBUTES_MESSAGE_KEY ATTRIBUTES_SPAN_TYPE_KEY
    (attributes ∪ reserved message) = attributes.
Proof.
  intros [Hm Ht]%reserved_disjoint. apply map_eq. intros k.
  unfold non_reserved.
  destruct (decide (k = ATTRIBUTES_SPAN_TYPE_KEY)) as [->|?];
    [by rewrite lookup_delete_eq|rewrite lookup_delete_ne by done].
  destruct (decide (k = ATTRIBUTES_MESSAGE_KEY)) as [->|?];
    [by rewrite lookup_delete_eq|rewrite lookup_delete_ne by done].
  rewrite lookup_union, reserved_other by done.
  by destruct (attributes !! k).
Qed.

(** What one call of [raw_annotate_span] does. *)
Lemma raw_annotate_span_run traceparent span_name message attributes w :
  annotate traceparent span_name message attributes w
  = let decorated_attributes := decoration environ w ∪ attributes in
    if decide (decorated_attributes ##ₘ reserved message)
    then (Ok (),
          emit (event traceparent span_name message decorated_attributes)
            (after_draw environ w))
    else (Raise TypeError, after_draw environ w).
Proof.
  unfold raw_annotate_span.
  rewrite (bind_ok _ _ _ _ _ (_random_attrs_run environ w)).
  unfold feedback_logfire_info, logger_info, reserved_attributes. cbn.
  by case_decide.
Qed.

Local Abbreviation feedback :=
  (record_feedback environ ATTRIBUTES_MESSAGE_KEY ATTRIBUTES_SPAN_TYPE_KEY
     TRACEPARENT_PROPAGATOR float_repr str_repr).

(** The assertion of [record_feedback] fails before anything else happens. *)
Lemma record_feedback_assertion traceparent name value comment
    (extra : gmap string Any) x w :
  extra !! name = Some x →
  feedback traceparent name value comment (Some extra) w
  = (Raise AssertionError, w).
Proof.
  intros Hx. unfold record_feedback.
  assert (truthy_dict extra = true) as ->.
  { apply bool_decide_eq_true. intros ->. by rewrite lookup_empty in Hx. }
  apply bind_raise, bind_raise.
  unfold assert_. by rewrite bool_decide_eq_true_2 by eauto.
Qed.

Lemma repr_raises_ValueError v e :
  repr float_repr str_repr v = Raise e → e = ValueError.
Proof.
  destruct v as [|[]|z| |]; cbn [repr]; try discriminate.
  destruct (_ <=? _)%Z; [by intros [= <-]|discriminate].
Qed.

Local Abbreviation message_of name value_repr :=
  ("feedback: " +:+ name +:+ " = " +:+ value_repr).

(** Otherwise [record_feedback] draws once, prints the value and hands over
    to [raw_annotate_span]. *)
Lemma record_feedback_prepared traceparent name value comment extra w :
  extra_admissible name extra →
  feedback traceparent name value comment extra w
  = (value_repr ← of_result (repr float_repr str_repr value);
     annotate traceparent ("feedback: " +:+ name) (message_of name value_repr)
       (decoration environ w ∪ feedback_attributes name value comment extra))
      (after_draw environ w).
Proof.
  intros Hadm. unfold record_feedback.
  erewrite bind_ok; last first.
  { instantiate (1 := w).
    instantiate (1 := default ∅ extra
                       ∪ <[name := value]> {[ "logfire.feedback.name" := VStr name ]}).
    destruct extra as [x|]; cbn; [|by rewrite (left_id_L ∅ (∪))].
    unfold truthy_dict. case_bool_decide as Hne.
    - apply bind_ok with (a := ()) (w' := w).
      unfold assert_. rewrite bool_decide_eq_false_2; [done|].
      rewrite (Hadm x eq_refl). by intros [? ?].
    - subst x. by rewrite (left_id_L ∅ (∪)). }
  rewrite (bind_ok _ _ _ _ _ (_random_attrs_run environ w)).
  unfold feedback_attributes. by destruct comment as [c|].
Qed.

Lemma record_feedback_run traceparent name value value_repr comment extra w :
  extra_admissible name extra →
  repr float_repr str_repr value = Ok value_repr →
  feedback traceparent name value comment extra w
  = annotate traceparent ("feedback: " +:+ name) (message_of name value_repr)
      (decoration environ w ∪ feedback_attributes name value comment extra)
      (after_draw environ w).
Proof.
  intros Hadm Hrepr. rewrite record_feedback_prepared by done.
  unfold mbind, M_bind, of_result. by rewrite Hrepr.
Qed.

(** A value that cannot be printed stops the call after its own draw. *)
Lemma record_feedback_unprintable traceparent name value e comment extra w :
  extra_admissible name extra →
  repr float_repr str_repr value = Raise e →
  feedback traceparent name value comment extra w
  = (Raise e, after_draw environ w).
Proof.
  intros Hadm Hrepr. rewrite record_feedback_prepared by done.
  unfold mbind, M_bind, of_result. by rewrite Hrepr.
Qed.

(** A call whose assertion holds, whose value prints and whose keys are not
    reserved emits. *)
Lemma record_feedback_emits traceparent name value value_repr comment extra w :
  extra_admissible name extra →
  repr float_repr str_repr value = Ok value_repr →
  unreserved ATTRIBUTES_MESSAGE_KEY ATTRIBUTES_SPAN_TYPE_KEY
    (feedback_decorated environ name value comment extra w) →
  feedback traceparent name value comment extra w
  = (Ok (),
     emit (event traceparent ("feedback: " +:+ name) (message_of name value_repr)
             (feedback_decorated environ name value comment extra w))
       (after_draw environ (after_draw environ w))).
Proof.
  intros Hadm Hrepr Hres.
  rewrite (record_feedback_run _ _ _ value_repr), raw_annotate_span_run by done.
  cbn zeta. rewrite decide_True; [done|]. by apply reserved_disjoint.
Qed.

(** The four ways a call of [record_feedback] can end. *)
Lemma record_feedback_outcomes traceparent name value comment extra w :
  feedback traceparent name value comment extra w = (Raise AssertionError, w)
  ∨ (repr float_repr str_repr value = Raise ValueError
     ∧ feedback traceparent name value comment extra w
       = (Raise ValueError, after_draw environ w))
  ∨ feedback traceparent name value comment extra w
    = (Raise TypeError, after_draw environ (after_draw environ w))
  ∨ (∃ value_repr,
       repr float_repr str_repr value = Ok value_repr
       ∧ unreserved ATTRIBUTES_MESSAGE_KEY ATTRIBUTES_SPAN_TYPE_KEY
           (feedback_decorated environ name value comment extra w)
       ∧ feedback traceparent name value comment extra w
         = (Ok (),
            emit (event traceparent ("feedback: " +:+ name)
                    (message_of name value_repr)
                    (feedback_decorated environ name value comment extra w))
              (after_draw environ (after_draw environ w)))).
Proof.
  assert (extra_admissible name extra
          ∨ ∃ x v, extra = Some x ∧ x !! name = Some v) as [Hadm|(x & v & -> & Hx)].
  { destruct extra as [x|]; [|by left].
    destruct (x !! name) as [v|] eqn:Hx; [by eauto|].
    left. by intros ? [= <-]. }
  - right. destruct (repr float_repr str_repr value) as [r|e] eqn:Hrepr.
    + right. rewrite (record_feedback_run _ _ _ r), raw_annotate_span_run by done.
      cbn zeta. case_decide as Hres; [right|by left].
      exists r. split; [done|]. split; [|done]. by apply reserved_disjoint in Hres.
    + left. pose proof (repr_raises_ValueError _ _ Hrepr) as ->.
      split; [done|]. by apply record_feedback_unprintable.
  - left. by eapply record_feedback_assertion.
Qed.

Lemma feedback_decorated_plain name value comment extra w k :
  k ∉ decorative_keys →
  feedback_decorated environ name value comment extra w !! k
  = feedback_attributes name value comment extra !! k.
Proof.
  intros Hk. unfold feedback_decorated.
  by rewrite !lookup_union, !decoration_fresh, !(left_id_L None union) by done.
Qed.

Lemma event_lookup_l traceparent span_name message
    (attributes : gmap string Any) k v :
  attributes !! k = Some v →
  em_attributes (event traceparent span_name message attributes) !! k = Some v.
Proof. intros H. cbn. by apply lookup_union_Some_l. Qed.

Lemma event_lookup_message traceparent span_name message
    (attributes : gmap string Any) :
  ATTRIBUTES_MESSAGE_KEY ≠ ATTRIBUTES_SPAN_TYPE_KEY →
  attributes !! ATTRIBUTES_MESSAGE_KEY = None →
  em_attributes (event traceparent span_name message attributes)
    !! ATTRIBUTES_MESSAGE_KEY = Some (VStr message).
Proof.
  intros Hne Hm. cbn. rewrite lookup_union_r by done. by apply reserved_message.
Qed.

Lemma emitted_emit e w : emitted (emit e w) = emitted w ++ [e].
Proof. done. Qed.

(** ** Properties of the annotator and the recorder *)

(** C2 (as amended): for every attribute map [A] and the decorative map [D]
    drawn for the call, when the keys of [A] and [D] are disjoint and
    neither map holds one of the two reserved keys, [raw_annotate_span]
    emits exactly one span, under the given name, whose attributes without
    the reserved entries are [A ∪ D]; with randomization disabled they are
    exactly [A]. *)
Theorem raw_annotate_span_emits_union traceparent span_name message
    (A : gmap string Any) w :
  A ##ₘ decoration environ w →
  unreserved ATTRIBUTES_MESSAGE_KEY ATTRIBUTES_SPAN_TYPE_KEY A →
  unreserved ATTRIBUTES_MESSAGE_KEY ATTRIBUTES_SPAN_TYPE_KEY (decoration environ w) →
  ∃ e w',
    annotate traceparent span_name message A w = (Ok (), w')
    ∧ emitted w' = emitted w ++ [e]
    ∧ em_name e = span_name
    ∧ non_reserved ATTRIBUTES_MESSAGE_KEY ATTRIBUTES_SPAN_TYPE_KEY (em_attributes e)
      = A ∪ decoration environ w
    ∧ (RANDOMIZE environ = false →
       non_reserved ATTRIBUTES_MESSAGE_KEY ATTRIBUTES_SPAN_TYPE_KEY (em_attributes e) = A).
Proof.
  intros Hdisj [HAm HAt] [HDm HDt].
  assert ((decoration environ w ∪ A) ##ₘ reserved message) as Hres.
  { apply reserved_disjoint. by rewrite !lookup_union, HAm, HAt, HDm, HDt. }
  eexists _, _. rewrite raw_annotate_span_run. cbn. rewrite decide_True by done.
  split; [done|]. rewrite emitted_emit, after_draw_emitted.
  split; [done|]. split; [done|]. cbn. rewrite non_reserved_event by done.
  split; [by apply map_union_comm|].
  intros Hoff. by rewrite decoration_off, (left_id_L ∅ (∪)).
Qed.

(** C3: when [extra] is given and binds the key [name], [record_feedback]
    fails with [AssertionError] and leaves the world as it found it: no
    span has been emitted and no random source has been read. *)
Theorem record_feedback_collision_fails traceparent name value comment
    (extra : gmap string Any) w :
  is_Some (extra !! name) →
  feedback traceparent name value comment (Some extra) w
  = (Raise AssertionError, w).
Proof. intros [x Hx]. by eapply record_feedback_assertion. Qed.

(** C4: given that [repr(0.9)] is ["0.9"] and that the two reserved keys are
    distinct and are none of the keys the call writes,
    [record_feedback(tp, "score", 0.9)] emits exactly one span, named
    ["feedback: score"], whose attributes bind ["logfire.feedback.name"] to
    ["score"], ["score"] to [0.9] and the message key to
    ["feedback: score = 0.9"].  In general a call of [record_feedback]
    either emits nothing (and fails) or emits exactly one span, named
    ["feedback: " + name], with message
    ["feedback: " + name + " = " + repr(value)]. *)
Theorem record_feedback_score :
  float_repr 0.9 = "0.9" →
  ATTRIBUTES_MESSAGE_KEY ≠ ATTRIBUTES_SPAN_TYPE_KEY →
  ATTRIBUTES_MESSAGE_KEY ∉ decorative_keys ∪ {[ "logfire.feedback.name"; "score" ]} →
  ATTRIBUTES_SPAN_TYPE_KEY ∉ decorative_keys ∪ {[ "logfire.feedback.name"; "score" ]} →
  (∀ traceparent w, ∃ e w',
      feedback traceparent "score" (VFloat 0.9) None None w = (Ok (), w')
      ∧ emitted w' = emitted w ++ [e]
      ∧ em_name e = "feedback: score"
      ∧ em_attributes e !! "logfire.feedback.name" = Some (VStr "score")
      ∧ em_attributes e !! "score" = Some (VFloat 0.9)
      ∧ em_attributes e !! ATTRIBUTES_MESSAGE_KEY
        = Some (VStr "feedback: score = 0.9"))
  ∧ (∀ traceparent name value comment extra w,
      (∃ e, (feedback traceparent name value comment extra w).1 = Raise e
            ∧ emitted (feedback traceparent name value comment extra w).2
              = emitted w)
      ∨ (∃ e, (feedback traceparent name value comment extra w).1 = Ok ()
            ∧ emitted (feedback traceparent name value comment extra w).2
              = emitted w ++ [e]
            ∧ em_name e = "feedback: " +:+ name
            ∧ ∃ value_repr,
                repr float_repr str_repr value = Ok value_repr
                ∧ em_attributes e !! ATTRIBUTES_MESSAGE_KEY
                  = Some (VStr ("feedback: " +:+ name +:+ " = "
                                +:+ value_repr)))).
Proof.
  intros Hrepr Hne Hm Ht. split.
  - intros traceparent w.
    assert (∀ k, k ∉ decorative_keys ∪ {[ "logfire.feedback.name"; "score" ]} →
                 feedback_decorated environ "score" (VFloat 0.9) None None w !! k
                 = None) as Hfresh.
    { intros k Hk. rewrite feedback_decorated_plain by set_solver.
      unfold feedback_attributes. cbn. rewrite (left_id_L ∅ (∪)).
      rewrite lookup_insert_ne, lookup_singleton_ne; [done| |]; set_solver. }
    eexists _, _.
    rewrite (record_feedback_emits _ _ _ (float_repr 0.9));
      [|by intros ? [=]|done|by split; apply Hfresh].
    split; [done|]. rewrite emitted_emit, !after_draw_emitted.
    split; [done|]. split; [done|].
    split; [|split].
    + apply event_lookup_l. rewrite feedback_decorated_plain by set_solver.
      unfold feedback_attributes. cbn. rewrite (left_id_L ∅ (∪)).
      by rewrite lookup_insert_ne, lookup_singleton_eq.
    + apply event_lookup_l. rewrite feedback_decorated_plain by set_solver.
      unfold feedback_attributes. cbn. rewrite (left_id_L ∅ (∪)).
      by rewrite lookup_insert_eq.
    + rewrite event_lookup_message; [|done|by apply Hfresh].
      cbn. by rewrite Hrepr.
  - intros traceparent name value comment extra w.
    destruct (record_feedback_outcomes traceparent name value comment extra w)
      as [->|[[_ ->]|[->|(r & Hr & [Hres _] & ->)]]]; cbn [fst snd].
    + left. by eexists.
    + left. eexists. by rewrite after_draw_emitted.
    + left. eexists. by rewrite !after_draw_emitted.
    + right. eexists. rewrite emitted_emit, !after_draw_emitted.
      split; [done|]. split; [done|]. split; [done|].
      exists r. split; [done|]. by apply event_lookup_message.
Qed.

Lemma feedback_attributes_no_comment name value comment extra :
  comment = None ∨ comment = Some "" →
  feedback_attributes name value comment extra
  = feedback_attributes name value None extra.
Proof. by intros [->| ->]. Qed.

Lemma feedback_attributes_comment name value c extra :
  c ≠ "" →
  feedback_attributes name value (Some c) extra !! "logfire.feedback.comment"
  = Some (VStr c).
Proof.
  intros Hc. unfold feedback_attributes. destruct c; [done|]. cbn.
  by rewrite lookup_insert_eq.
Qed.

Lemma comment_key_not_decorative : "logfire.feedback.comment" ∉ decorative_keys.
Proof. clear. unfold decorative_keys. set_solver. Qed.

(** C8 (as amended): for every call of [record_feedback] whose assertion
    holds, whose value [repr] prints without raising and none of whose
    attribute keys is reserved, exactly one span is emitted; when [comment]
    is a non-empty string its attributes bind ["logfire.feedback.comment"] to
    the comment; when [comment] is [None] or [""] the comment contributes
    nothing: the key is bound only as far as [name] or [extra] bind it, and
    is absent when neither does. *)
Theorem record_feedback_comment traceparent name value value_repr comment extra w :
  extra_admissible name extra →
  repr float_repr str_repr value = Ok value_repr →
  unreserved ATTRIBUTES_MESSAGE_KEY ATTRIBUTES_SPAN_TYPE_KEY
    (feedback_decorated environ name value comment extra w) →
  ATTRIBUTES_MESSAGE_KEY ≠ "logfire.feedback.comment" →
  ATTRIBUTES_SPAN_TYPE_KEY ≠ "logfire.feedback.comment" →
  ∃ e w',
    feedback traceparent name value comment extra w = (Ok (), w')
    ∧ emitted w' = emitted w ++ [e]
    ∧ (∀ c, comment = Some c → c ≠ "" →
         em_attributes e !! "logfire.feedback.comment" = Some (VStr c))
    ∧ (comment = None ∨ comment = Some "" →
         em_attributes e !! "logfire.feedback.comment"
         = feedback_attributes name value None extra !! "logfire.feedback.comment")
    ∧ (comment = None ∨ comment = Some "" →
         name ≠ "logfire.feedback.comment" →
         (∀ x, extra = Some x → x !! "logfire.feedback.comment" = None) →
         em_attributes e !! "logfire.feedback.comment" = None).
Proof.
  intros Hadm Hrepr Hres Hm Ht. eexists _, _.
  rewrite (record_feedback_emits _ _ _ value_repr) by done.
  split; [done|]. rewrite emitted_emit, !after_draw_emitted. split; [done|].
  assert (comment = None ∨ comment = Some "" →
          em_attributes
            (event traceparent ("feedback: " +:+ name) (message_of name value_repr)
               (feedback_decorated environ name value comment extra w))
            !! "logfire.feedback.comment"
          = feedback_attributes name value None extra !! "logfire.feedback.comment")
    as Hnone.
  { intros Hc. cbn. rewrite lookup_union, reserved_other by done.
    rewrite (right_id_L None union).
    rewrite feedback_decorated_plain by apply comment_key_not_decorative.
    by rewrite feedback_attributes_no_comment. }
  split; [|split; [done|]].
  - intros c -> Hc. apply event_lookup_l.
    rewrite feedback_decorated_plain by apply comment_key_not_decorative.
    by apply feedback_attributes_comment.
  - intros Hc Hname Hextra. rewrite Hnone by done.
    unfold feedback_attributes. rewrite lookup_union.
    rewrite lookup_insert_ne, lookup_singleton_ne by done.
    rewrite (right_id_L None union).
    destruct extra as [x|]; [by apply Hextra|done].
Qed.

(** C9: with randomization enabled, for every draw of the random sources
    that honours the contract of [random.randint], [_random_attrs] returns
    attributes whose ["x-random-power"] is an integer between 1 and 9000. *)
Theorem random_power_in_range w :
  RANDOMIZE environ = true →
  randint_contract (entropy w (draws w)) →
  ∃ attrs w' p,
    _random_attrs environ w = (Ok attrs, w')
    ∧ attrs !! "x-random-power" = Some (VInt p)
    ∧ (1 ≤ p ≤ 9000)%Z.
Proof.
  intros Hon Hrand. eexists _, _, _. rewrite _random_attrs_run.
  split; [done|]. split; [by apply decoration_power|]. by apply Hrand.
Qed.

Lemma feedback_decorated_unreserved name value comment extra w :
  ATTRIBUTES_MESSAGE_KEY ∉ decorative_keys →
  ATTRIBUTES_SPAN_TYPE_KEY ∉ decorative_keys →
  unreserved ATTRIBUTES_MESSAGE_KEY ATTRIBUTES_SPAN_TYPE_KEY
    (feedback_attributes name value comment extra) →
  unreserved ATTRIBUTES_MESSAGE_KEY ATTRIBUTES_SPAN_TYPE_KEY
    (feedback_decorated environ name value comment extra w).
Proof.
  intros Hm Ht [Hfm Hft]. split; by rewrite feedback_decorated_plain.
Qed.

(** A key the call's own attributes bind is bound in the emitted span. *)
Lemma record_feedback_emits_supplied traceparent name value value_repr comment
    extra w w0 k :
  emitted w0 = emitted w →
  extra_admissible name extra →
  repr float_repr str_repr value = Ok value_repr →
  unreserved ATTRIBUTES_MESSAGE_KEY ATTRIBUTES_SPAN_TYPE_KEY
    (feedback_decorated environ name value comment extra w0) →
  is_Some (feedback_attributes name value comment extra !! k) →
  emits_key k w (feedback traceparent name value comment extra w0) = true.
Proof.
  intros Hw Hadm Hrepr Hres Hk.
  rewrite (record_feedback_emits _ _ _ value_repr) by done.
  unfold emits_key. cbn [snd]. rewrite emitted_emit, !after_draw_emitted, Hw.
  rewrite drop_app_length. apply bool_decide_eq_true_2.
  cbn [em_attributes annotation_event]. unfold feedback_decorated.
  apply lookup_union_is_Some. left.
  apply lookup_union_is_Some. right.
  apply lookup_union_is_Some. by right.
Qed.

Lemma easter_egg_key_decorative : "x-random-easter-egg" ∈ decorative_keys.
Proof. clear. unfold decorative_keys. set_solver. Qed.

(** With the answers of the two rounds fixed to [d1] and [d2], the emitted
    span carries the easter egg exactly when one of them produced it. *)
Lemma record_feedback_egg_of_draws traceparent name value value_repr comment
    extra w d1 d2 :
  RANDOMIZE environ = true →
  extra_admissible name extra →
  repr float_repr str_repr value = Ok value_repr →
  ATTRIBUTES_MESSAGE_KEY ∉ decorative_keys →
  ATTRIBUTES_SPAN_TYPE_KEY ∉ decorative_keys →
  unreserved ATTRIBUTES_MESSAGE_KEY ATTRIBUTES_SPAN_TYPE_KEY
    (feedback_attributes name value comment extra) →
  feedback_attributes name value comment extra !! "x-random-easter-egg" = None →
  emits_key "x-random-easter-egg" w
    (feedback traceparent name value comment extra (two_draws d1 d2 w))
  = easter_egg d1 || easter_egg d2.
Proof.
  intros Hon Hadm Hrepr Hm Ht Hres Hegg.
  rewrite (record_feedback_emits _ _ _ value_repr)
    by (try done; by apply feedback_decorated_unreserved).
  unfold emits_key. cbn [snd]. rewrite emitted_emit, !after_draw_emitted.
  change (emitted (two_draws d1 d2 w)) with (emitted w).
  rewrite drop_app_length.
  assert (decoration environ (two_draws d1 d2 w) !! "x-random-easter-egg"
          = if easter_egg d1 then Some (VStr "may_the_force_be_with_you")
            else None) as H1.
  { rewrite decoration_easter_egg, Hon. cbn [two_draws entropy draws andb].
    by rewrite decide_True. }
  assert (decoration environ (after_draw environ (two_draws d1 d2 w))
            !! "x-random-easter-egg"
          = if easter_egg d2 then Some (VStr "may_the_force_be_with_you")
            else None) as H2.
  { rewrite decoration_easter_egg, after_draw_on, Hon by done.
    cbn [two_draws entropy draws andb].
    rewrite decide_False by lia. done. }
  cbn [em_attributes annotation_event]. unfold feedback_decorated.
  rewrite !lookup_union, H1, H2, Hegg, reserved_other;
    [|intros Heq; apply Hm; rewrite <-Heq; apply easter_egg_key_decorative
     |intros Heq; apply Ht; rewrite <-Heq; apply easter_egg_key_decorative].
  by destruct (easter_egg d1), (easter_egg d2).
Qed.

(** C10 (as amended): with randomization enabled, every call of
    [record_feedback] whose assertion on [extra] holds and whose value [repr]
    prints without raising draws decorative attributes twice, once itself and
    once more inside [raw_annotate_span], to which it hands its attributes
    merged with the first draw.  When the span is emitted, every key of the
    second draw carries the second draw's value, a key of the first draw
    alone carries the first draw's value, and the easter egg is present if
    either draw produced it.  When moreover the call does not itself supply
    the easter-egg key, then over the pairs of independent draws from any
    finite population the span carries the egg in all pairs but those where
    both draws miss; where one draw in twenty produces the egg (5%), that is
    39 pairs in 400, the probability 1 - 0.95^2, not 5%. *)
Theorem record_feedback_draws_twice traceparent name value value_repr comment
    extra w :
  RANDOMIZE environ = true →
  extra_admissible name extra →
  repr float_repr str_repr value = Ok value_repr →
  feedback traceparent name value comment extra w
  = annotate traceparent ("feedback: " +:+ name) (message_of name value_repr)
      (decoration environ w ∪ feedback_attributes name value comment extra)
      (after_draw environ w)
  ∧ draws (after_draw environ w) = S (draws w)
  ∧ draws (feedback traceparent name value comment extra w).2 = S (S (draws w))
  ∧ (unreserved ATTRIBUTES_MESSAGE_KEY ATTRIBUTES_SPAN_TYPE_KEY
       (feedback_decorated environ name value comment extra w) →
     ∃ e w',
       feedback traceparent name value comment extra w = (Ok (), w')
       ∧ emitted w' = emitted w ++ [e]
       ∧ (∀ k v, decoration environ (after_draw environ w) !! k = Some v →
            em_attributes e !! k = Some v)
       ∧ (∀ k v, decoration environ w !! k = Some v →
            decoration environ (after_draw environ w) !! k = None →
            em_attributes e !! k = Some v)
       ∧ (is_Some (decoration environ w !! "x-random-easter-egg")
          ∨ is_Some (decoration environ (after_draw environ w)
                       !! "x-random-easter-egg") →
          em_attributes e !! "x-random-easter-egg"
          = Some (VStr "may_the_force_be_with_you")))
  ∧ (ATTRIBUTES_MESSAGE_KEY ∉ decorative_keys →
     ATTRIBUTES_SPAN_TYPE_KEY ∉ decorative_keys →
     unreserved ATTRIBUTES_MESSAGE_KEY ATTRIBUTES_SPAN_TYPE_KEY
       (feedback_attributes name value comment extra) →
     feedback_attributes name value comment extra !! "x-random-easter-egg" = None →
     ∀ population : list Draw,
       length
         (List.filter
            (λ p, emits_key "x-random-easter-egg" w
                    (feedback traceparent name value comment extra
                       (two_draws p.1 p.2 w)))
            (list_prod population population))
       + length (List.filter (λ d, negb (easter_egg d)) population)
         * length (List.filter (λ d, negb (easter_egg d)) population)
       = length population * length population
       ∧ (20 * length (List.filter easter_egg population) = length population →
          400 * length
                  (List.filter
                     (λ p, emits_key "x-random-easter-egg" w
                             (feedback traceparent name value comment extra
                                (two_draws p.1 p.2 w)))
                     (list_prod population population))
          = 39 * (length population * length population))).
Proof.
  intros Hon Hadm Hrepr.
  assert (∀ k v, decoration environ (after_draw environ w) !! k = Some v →
            feedback_decorated environ name value comment extra w !! k = Some v)
    as Hsecond.
  { intros k v Hk. unfold feedback_decorated. by apply lookup_union_Some_l. }
  assert (∀ k v, decoration environ w !! k = Some v →
            decoration environ (after_draw environ w) !! k = None →
            feedback_decorated environ name value comment extra w !! k = Some v)
    as Hfirst.
  { intros k v Hk Hk'. unfold feedback_decorated.
    rewrite lookup_union_r by done. by apply lookup_union_Some_l. }
  split; [by apply record_feedback_run|].
  split; [by rewrite after_draw_on|].
  split; [|split].
  - rewrite (record_feedback_run _ _ _ value_repr), raw_annotate_span_run by done.
    cbn zeta. case_decide; cbn; by rewrite !after_draw_on.
  - intros Hres. eexists _, _.
    rewrite (record_feedback_emits _ _ _ value_repr) by done.
    split; [done|]. rewrite emitted_emit, !after_draw_emitted. split; [done|].
    split; [|split].
    + intros k v Hk. by apply event_lookup_l, Hsecond.
    + intros k v Hk Hk'. by apply event_lookup_l, Hfirst.
    + intros Hegg. apply event_lookup_l.
      destruct (decoration environ (after_draw environ w)
                  !! "x-random-easter-egg") as [v|] eqn:H2.
      * apply Hsecond. rewrite H2. rewrite decoration_easter_egg in H2.
        by destruct (_ && _).
      * destruct Hegg as [[v H1]|[? ?]]; [|done].
        apply Hfirst; [|done]. rewrite H1. rewrite decoration_easter_egg in H1.
        by destruct (_ && _).
  - intros Hm Ht Hres Hegg population.
    rewrite (List.filter_ext _ (λ p, easter_egg p.1 || easter_egg p.2))
      by (intros [d1 d2]; by apply (record_feedback_egg_of_draws _ _ _ value_repr)).
    pose proof (count_pairs_either easter_egg population) as Hcount.
    pose proof (List.filter_length easter_egg population) as Hsplit.
    split; [exact Hcount|]. intros Hfive. nia.
Qed.
End Annotator.

(** ** The W3C propagator: formatting and parsing are inverse *)

Section Propagation.
Import W3C.
Local Open Scope Z_scope.

Lemma hex_value_digit d : 0 ≤ d < 16 → hex_value (hex_digit d) = Some d.
Proof.
  intros Hd.
  assert (d = 0 ∨ d = 1 ∨ d = 2 ∨ d = 3 ∨ d = 4 ∨ d = 5 ∨ d = 6 ∨ d = 7
          ∨ d = 8 ∨ d = 9 ∨ d = 10 ∨ d = 11 ∨ d = 12 ∨ d = 13 ∨ d = 14
          ∨ d = 15) as Hcases by lia.
  repeat (destruct Hcases as [->|Hcases]; [reflexivity|]). by subst.
Qed.

Lemma is_hex_digit d : 0 ≤ d < 16 → is_hex (hex_digit d) = true.
Proof. intros Hd. unfold is_hex. by rewrite hex_value_digit. Qed.

Lemma length_hex_fixed n z : length (hex_fixed n z) = n.
Proof.
  revert z. induction n as [|n IH]; intros z; cbn; [done|].
  rewrite length_app, IH. cbn. lia.
Qed.

Lemma hex_fixed_is_hex n z : Forall (λ c, is_hex c = true) (hex_fixed n z).
Proof.
  revert z. induction n as [|n IH]; intros z; cbn; [constructor|].
  apply Forall_app. split; [apply IH|].
  repeat constructor. apply is_hex_digit, Z.mod_pos_bound. lia.
Qed.

Lemma int16_snoc l c : int16 (l ++ [c]) = int16 l * 16 + default 0 (hex_value c).
Proof. unfold int16. by rewrite fold_left_app. Qed.

Lemma int16_hex_fixed n z : int16 (hex_fixed n z) = z mod 16 ^ Z.of_nat n.
Proof.
  revert z. induction n as [|n IH]; intros z.
  - cbn. by rewrite Z.mod_1_r.
  - cbn [hex_fixed]. rewrite int16_snoc, IH.
    rewrite hex_value_digit by (apply Z.mod_pos_bound; lia). cbn [default].
    rewrite Nat2Z.inj_succ, Z.pow_succ_r by lia.
    rewrite Z.rem_mul_r by (try lia; apply Z.pow_pos_nonneg; lia).
    unfold id. ring.
Qed.

Lemma int16_zeros n : int16 (zeros n) = 0.
Proof.
  induction n as [|n IH]; [done|].
  unfold zeros in *. cbn [repeat]. unfold int16 in *. cbn. apply IH.
Qed.

Lemma hex_fixed_not_zeros n z :
  0 < z < 16 ^ Z.of_nat n → hex_fixed n z ≠ zeros n.
Proof.
  intros Hz Heq. apply (f_equal int16) in Heq.
  rewrite int16_hex_fixed, int16_zeros, Z.mod_small in Heq; lia.
Qed.

Lemma take_hex_app l rest :
  Forall (λ c, is_hex c = true) l →
  take_hex (length l) (l ++ rest) = Some (l, rest).
Proof.
  induction 1 as [|c l Hc _ IH]; [done|].
  cbn. by rewrite Hc, IH.
Qed.

Lemma take_hex_exact n l rest :
  Forall (λ c, is_hex c = true) l → length l = n →
  take_hex n (l ++ rest) = Some (l, rest).
Proof. intros Hl <-. by apply take_hex_app. Qed.

Lemma take_hex_fixed n z rest :
  take_hex n (hex_fixed n z ++ rest) = Some (hex_fixed n z, rest).
Proof.
  rewrite <-(length_hex_fixed n z) at 1. apply take_hex_app, hex_fixed_is_hex.
Qed.

(** Within its width, a number is printed with exactly [width] digits. *)
Lemma format_hex_fits (width : nat) z :
  (0 < width)%nat → 0 ≤ z < 16 ^ Z.of_nat width →
  format_hex width z = hex_fixed width z.
Proof.
  intros Hw Hz. unfold format_hex.
  destruct (Z.ltb_spec z 0) as [?|_]; [lia|].
  replace (Nat.max width (hex_len z)) with width; [done|].
  symmetry. apply Nat.max_l. unfold hex_len.
  destruct (decide (z = 0)) as [->|Hz0];
    [change (Z.to_nat (Z.log2 0 / 4 + 1)) with 1%nat; lia|].
  assert (Z.log2 z < 4 * Z.of_nat width) as Hlog.
  { apply Z.log2_lt_pow2; [lia|].
    replace (2 ^ (4 * Z.of_nat width)) with (16 ^ Z.of_nat width); [lia|].
    change 16 with (2 ^ 4). by rewrite <-Z.pow_mul_r by lia. }
  assert (Z.log2 z / 4 < Z.of_nat width)
    by (apply Z.div_lt_upper_bound; lia).
  pose proof (Z.log2_nonneg z). pose proof (Z.div_pos (Z.log2 z) 4). lia.
Qed.

Local Arguments take_hex : simpl never.

Lemma hex_not_blank c : is_hex c = true → is_blank c = false.
Proof. by destruct c as [[] [] [] [] [] [] [] []]. Qed.

(** Four groups of the right sizes, joined by dashes, match as themselves. *)
Lemma match_traceparent_groups v t s f :
  Forall (λ c, is_hex c = true) v → length v = 2%nat →
  Forall (λ c, is_hex c = true) t → length t = 32%nat →
  Forall (λ c, is_hex c = true) s → length s = 16%nat →
  Forall (λ c, is_hex c = true) f → length f = 2%nat →
  match_traceparent (v ++ "-"%char :: t ++ "-"%char :: s ++ "-"%char :: f)
  = Some (mkGroups v t s f false).
Proof.
  intros Hv Lv Ht Lt Hs Ls Hf Lf. unfold match_traceparent.
  assert (∀ rest, skip_blanks (v ++ rest) = v ++ rest) as ->.
  { intros rest. destruct Hv as [|c v' Hc _]; [done|].
    cbn. by rewrite (hex_not_blank c). }
  rewrite (take_hex_exact 2 v) by done. cbn.
  rewrite (take_hex_exact 32 t) by done. cbn.
  rewrite (take_hex_exact 16 s) by done. cbn.
  rewrite <-(app_nil_r f), (take_hex_exact 2 f) by done. cbn.
  by rewrite !app_nil_r.
Qed.

(** The header of a live span is matched back into its groups. *)
Lemma match_traceparent_string s :
  live s →
  match_traceparent
    (list_ascii_of_string (traceparent_string (get_span_context s)))
  = Some (mkGroups (list_ascii_of_string "00")
            (hex_fixed 32 (trace_id (get_span_context s)))
            (hex_fixed 16 (span_id (get_span_context s)))
            (hex_fixed 2 (trace_flags (get_span_context s))) false).
Proof.
  intros [[Ht Hs] Hf]. unfold traceparent_string.
  rewrite list_ascii_of_string_of_list_ascii.
  unfold format_trace_id, format_span_id.
  rewrite !format_hex_fits by (cbn; lia).
  apply (match_traceparent_groups (list_ascii_of_string "00"));
    first [apply hex_fixed_is_hex | apply length_hex_fixed
          | done | by repeat constructor].
Qed.
End Propagation.

(** ** The context extractor *)

Section Extractor.
Context (TRACEPARENT_PROPAGATOR : TextMapPropagator).

Lemma get_traceparent_run span s :
  underlying span = Some s →
  get_traceparent TRACEPARENT_PROPAGATOR span
  = Ok (default ""
          (inject TRACEPARENT_PROPAGATOR ∅ (set_span_in_context s)
             !! TRACEPARENT_NAME)).
Proof.
  unfold get_traceparent. destruct span as [s'|[o]]; cbn.
  - by intros [= ->].
  - by intros ->.
Qed.

(** C6: whenever the propagator injects no ["traceparent"] entry for the
    span, [get_traceparent] returns the empty string and raises nothing. *)
Theorem get_traceparent_no_header span s :
  underlying span = Some s →
  inject TRACEPARENT_PROPAGATOR ∅ (set_span_in_context s) !! TRACEPARENT_NAME
  = None →
  get_traceparent TRACEPARENT_PROPAGATOR span = Ok "".
Proof. intros Hs Hnone. by rewrite (get_traceparent_run span s), Hnone. Qed.

(** C7: given a wrapper, [get_traceparent] fails with [AssertionError] when
    the wrapper holds no raw span, and returns a string, so that the
    assertion has not fired, when it holds one. *)
Theorem get_traceparent_wrapper (span : LogfireSpan) :
  match _span span with
  | None =>
      get_traceparent TRACEPARENT_PROPAGATOR (OfLogfireSpan span)
      = Raise AssertionError
  | Some real_span =>
      get_traceparent TRACEPARENT_PROPAGATOR (OfLogfireSpan span)
      = Ok (default ""
              (inject TRACEPARENT_PROPAGATOR ∅ (set_span_in_context real_span)
                 !! TRACEPARENT_NAME))
  end.
Proof. unfold get_traceparent. by destruct (_span span). Qed.
End Extractor.

Lemma W3C_import_assertion : import_assertion W3C.TraceContextTextMapPropagator = true.
Proof. apply bool_decide_eq_true. cbn. set_solver. Qed.

Lemma W3C_get_traceparent span s :
  underlying span = Some s →
  live s →
  get_traceparent W3C.TraceContextTextMapPropagator span
  = Ok (W3C.traceparent_string (get_span_context s)).
Proof.
  intros Hs [[Ht _] _]. rewrite (get_traceparent_run _ span s) by done.
  cbn [inject W3C.TraceContextTextMapPropagator].
  unfold W3C.inject, set_span_in_context, get_current_span.
  change W3C._TRACEPARENT_HEADER_NAME with TRACEPARENT_NAME.
  rewrite decide_False; last first.
  { intros Heq. rewrite Heq in Ht. unfold INVALID_SPAN_CONTEXT in Ht.
    cbn [trace_id] in Ht. unfold INVALID_TRACE_ID in Ht. lia. }
  cbn zeta. destruct (truthy_str _).
  - by rewrite lookup_insert_ne, lookup_insert_eq.
  - by rewrite lookup_insert_eq.
Qed.

Lemma W3C_extract_traceparent s :
  live s →
  W3C.extract {[ TRACEPARENT_NAME := W3C.traceparent_string (get_span_context s) ]}
  = Some (NonRecordingSpan
            (mkSpanContext (trace_id (get_span_context s))
               (span_id (get_span_context s)) true
               (trace_flags (get_span_context s)) "")).
Proof.
  intros Hlive. pose proof Hlive as [[Ht Hs] Hf].
  unfold W3C.extract. cbn zeta.
  change W3C._TRACEPARENT_HEADER_NAME with TRACEPARENT_NAME.
  rewrite lookup_singleton_eq, match_traceparent_string by done.
  cbn [W3C.g_version W3C.g_trace_id W3C.g_span_id W3C.g_trace_flags W3C.g_rest].
  rewrite bool_decide_eq_false_2; last first.
  { intros [H|H]; revert H; apply hex_fixed_not_zeros; cbn; lia. }
  rewrite andb_false_r.
  rewrite bool_decide_eq_false_2 by done.
  rewrite lookup_singleton_ne by done. cbn [default set_span_in_context].
  rewrite !int16_hex_fixed, !Z.mod_small by (cbn; lia). done.
Qed.

(** C5: for every live span, the string [get_traceparent] returns, handed to
    the extracting half of the same propagator under the key ["traceparent"],
    yields a context whose trace id is the span's trace id. *)
Theorem traceparent_round_trip span s :
  underlying span = Some s →
  live s →
  ∃ traceparent,
    get_traceparent W3C.TraceContextTextMapPropagator span = Ok traceparent
    ∧ context_trace_id
        (extract W3C.TraceContextTextMapPropagator
           {[ TRACEPARENT_NAME := traceparent ]})
      = trace_id (get_span_context s).
Proof.
  intros Hs Hlive. eexists. split; [by apply W3C_get_traceparent|].
  cbn [extract W3C.TraceContextTextMapPropagator].
  by rewrite W3C_extract_traceparent.
Qed.

(** ** Closed instances *)

Lemma upstream_message_key_fresh : upstream_message_key ∉ decorative_keys.
Proof. unfold upstream_message_key, decorative_keys. set_solver. Qed.

Lemma upstream_span_type_key_fresh : upstream_span_type_key ∉ decorative_keys.
Proof. unfold upstream_span_type_key, decorative_keys. set_solver. Qed.

(** C1 (the code does otherwise): with randomization enabled, a caller who
    passes its own ["x-random-power"] to [raw_annotate_span] finds, in the
    emitted span, the number drawn by [random.randint] under that key and not
    the value it supplied: the decoration is merged last and wins. *)
Theorem caller_power_overridden traceparent span_name message w :
  ∃ e w',
    raw_annotate_span randomize_on upstream_message_key upstream_span_type_key
      W3C.TraceContextTextMapPropagator traceparent span_name message
      {[ "x-random-power" := VStr "caller" ]} w = (Ok (), w')
    ∧ emitted w' = emitted w ++ [e]
    ∧ em_attributes e !! "x-random-power"
      = Some (VInt (random_randint (entropy w (draws w)) 1 9000))
    ∧ em_attributes e !! "x-random-power" ≠ Some (VStr "caller").
Proof.
  assert (em_attributes
            (annotation_event upstream_message_key upstream_span_type_key
               W3C.TraceContextTextMapPropagator traceparent span_name message
               (decoration randomize_on w ∪ {[ "x-random-power" := VStr "caller" ]}))
            !! "x-random-power"
          = Some (VInt (random_randint (entropy w (draws w)) 1 9000))) as Hpower.
  { apply event_lookup_l, lookup_union_Some_l, decoration_power, RANDOMIZE_default. }
  eexists _, _. rewrite raw_annotate_span_run. cbn zeta.
  rewrite decide_True; last first.
  { apply reserved_disjoint.
    split; apply lookup_union_None; (split; [|by apply lookup_singleton_ne]);
      apply decoration_fresh;
      [apply upstream_message_key_fresh|apply upstream_span_type_key_fresh]. }
  split; [done|]. rewrite emitted_emit, after_draw_emitted. split; [done|].
  split; [done|]. by rewrite Hpower.
Qed.

(** C2 (counterexample to the statement as written): with randomization disabled
    the decorative map is empty, hence disjoint from any [A]; yet for an [A]
    that binds the message key the call fails with [TypeError] and emits
    nothing. *)
Lemma raw_annotate_span_reserved_key_rejected :
  ({[ upstream_message_key := VStr "mine" ]} : gmap string Any)
    ##ₘ decoration randomize_off sample_world
  ∧ raw_annotate_span randomize_off upstream_message_key upstream_span_type_key
      W3C.TraceContextTextMapPropagator sample_traceparent "note" "hello"
      {[ upstream_message_key := VStr "mine" ]} sample_world
    = (Raise TypeError, sample_world)
  ∧ ¬ ∃ e w',
        raw_annotate_span randomize_off upstream_message_key upstream_span_type_key
          W3C.TraceContextTextMapPropagator sample_traceparent "note" "hello"
          {[ upstream_message_key := VStr "mine" ]} sample_world
        = (Ok (), w')
        ∧ emitted w' = emitted sample_world ++ [e]
        ∧ non_reserved upstream_message_key upstream_span_type_key (em_attributes e)
          = {[ upstream_message_key := VStr "mine" ]} ∪ decoration randomize_off sample_world.
Proof.
  assert (raw_annotate_span randomize_off upstream_message_key upstream_span_type_key
            W3C.TraceContextTextMapPropagator sample_traceparent "note" "hello"
            {[ upstream_message_key := VStr "mine" ]} sample_world
          = (Raise TypeError, sample_world)) as Hrun.
  { rewrite raw_annotate_span_run. cbn zeta.
    rewrite after_draw_off, decoration_off by apply RANDOMIZE_disabled.
    rewrite decide_False; [done|].
    rewrite reserved_disjoint, (left_id_L ∅ (∪)), lookup_singleton_eq.
    by intros [? _]. }
  split; [|split; [done|]].
  - rewrite decoration_off by apply RANDOMIZE_disabled. apply map_disjoint_empty_r.
  - intros (e & w' & Hok & _). by rewrite Hrun in Hok.
Qed.

Lemma raw_annotate_span_emits_union_witness :
  ({[ "author" := VStr "ada" ]} : gmap string Any)
    ##ₘ decoration randomize_on sample_world
  ∧ ∃ e w',
      raw_annotate_span randomize_on upstream_message_key upstream_span_type_key
        W3C.TraceContextTextMapPropagator sample_traceparent "note" "hello"
        {[ "author" := VStr "ada" ]} sample_world = (Ok (), w')
      ∧ emitted w' = emitted sample_world ++ [e]
      ∧ em_name e = "note"
      ∧ non_reserved upstream_message_key upstream_span_type_key (em_attributes e)
        = {[ "author" := VStr "ada" ]} ∪ decoration randomize_on sample_world.
Proof.
  assert (({[ "author" := VStr "ada" ]} : gmap string Any)
            ##ₘ decoration randomize_on sample_world) as Hdisj.
  { apply map_disjoint_singleton_l, decoration_fresh.
    unfold decorative_keys. set_solver. }
  split; [exact Hdisj|].
  destruct (raw_annotate_span_emits_union randomize_on upstream_message_key
              upstream_span_type_key W3C.TraceContextTextMapPropagator
              sample_traceparent "note" "hello" {[ "author" := VStr "ada" ]}
              sample_world Hdisj) as (e & w' & Hrun & Hem & Hname & Hattrs & _).
  - split; by apply lookup_singleton_ne.
  - split; apply decoration_fresh;
      [apply upstream_message_key_fresh|apply upstream_span_type_key_fresh].
  - exists e, w'. exact (conj Hrun (conj Hem (conj Hname Hattrs))).
Defined.

Lemma record_feedback_collision_fails_witness :
  is_Some (({[ "score" := VInt 1 ]} : gmap string Any) !! "score")
  ∧ record_feedback randomize_on upstream_message_key upstream_span_type_key
      W3C.TraceContextTextMapPropagator sample_float_repr sample_str_repr
      sample_traceparent "score" (VFloat 0.9) None (Some {[ "score" := VInt 1 ]})
      sample_world
    = (Raise AssertionError, sample_world).
Proof.
  assert (is_Some (({[ "score" := VInt 1 ]} : gmap string Any) !! "score")) as H.
  { rewrite lookup_singleton_eq. by eexists. }
  split; [exact H|].
  exact (record_feedback_collision_fails randomize_on upstream_message_key
           upstream_span_type_key W3C.TraceContextTextMapPropagator
           sample_float_repr sample_str_repr sample_traceparent "score"
           (VFloat 0.9) None {[ "score" := VInt 1 ]} sample_world H).
Defined.

Lemma record_feedback_score_witness :
  sample_float_repr 0.9 = "0.9"
  ∧ upstream_message_key ≠ upstream_span_type_key
  ∧ ∃ e w',
      record_feedback randomize_on upstream_message_key upstream_span_type_key
        W3C.TraceContextTextMapPropagator sample_float_repr sample_str_repr
        sample_traceparent "score" (VFloat 0.9) None None sample_world
      = (Ok (), w')
      ∧ emitted w' = emitted sample_world ++ [e]
      ∧ em_name e = "feedback: score"
      ∧ em_attributes e !! "logfire.feedback.name" = Some (VStr "score")
      ∧ em_attributes e !! "score" = Some (VFloat 0.9)
      ∧ em_attributes e !! upstream_message_key
        = Some (VStr "feedback: score = 0.9").
Proof.
  assert (sample_float_repr 0.9 = "0.9") as H1 by reflexivity.
  assert (upstream_message_key ≠ upstream_span_type_key) as H2 by discriminate.
  assert (upstream_message_key
            ∉ decorative_keys ∪ {[ "logfire.feedback.name"; "score" ]}) as H3.
  { unfold upstream_message_key, decorative_keys. set_solver. }
  assert (upstream_span_type_key
            ∉ decorative_keys ∪ {[ "logfire.feedback.name"; "score" ]}) as H4.
  { unfold upstream_span_type_key, decorative_keys. set_solver. }
  split; [exact H1|]. split; [exact H2|].
  exact (proj1 (record_feedback_score randomize_on upstream_message_key
                  upstream_span_type_key W3C.TraceContextTextMapPropagator
                  sample_float_repr sample_str_repr H1 H2 H3 H4)
           sample_traceparent sample_world).
Defined.

Lemma traceparent_round_trip_witness :
  underlying (OfSpan sample_span) = Some sample_span
  ∧ live sample_span
  ∧ ∃ traceparent,
      get_traceparent W3C.TraceContextTextMapPropagator (OfSpan sample_span)
      = Ok traceparent
      ∧ context_trace_id
          (extract W3C.TraceContextTextMapPropagator
             {[ TRACEPARENT_NAME := traceparent ]})
        = trace_id (get_span_context sample_span).
Proof.
  assert (live sample_span) as Hlive.
  { unfold live, is_valid, sample_span. cbn. lia. }
  split; [reflexivity|]. split; [exact Hlive|].
  exact (traceparent_round_trip (OfSpan sample_span) sample_span eq_refl Hlive).
Defined.

Lemma get_traceparent_no_header_witness :
  underlying (OfSpan INVALID_SPAN) = Some INVALID_SPAN
  ∧ inject W3C.TraceContextTextMapPropagator ∅ (set_span_in_context INVALID_SPAN)
      !! TRACEPARENT_NAME = None
  ∧ get_traceparent W3C.TraceContextTextMapPropagator (OfSpan INVALID_SPAN) = Ok "".
Proof.
  assert (inject W3C.TraceContextTextMapPropagator ∅
            (set_span_in_context INVALID_SPAN) !! TRACEPARENT_NAME = None) as H
    by reflexivity.
  split; [reflexivity|]. split; [exact H|].
  exact (get_traceparent_no_header W3C.TraceContextTextMapPropagator
           (OfSpan INVALID_SPAN) INVALID_SPAN eq_refl H).
Defined.

(** C8 (counterexample to the statement as written): the comment is a
    non-empty string in both calls.  In the first, [extra] binds [name]: the
    call fails on its assertion and no span, hence no
    ["logfire.feedback.comment"] attribute, is emitted.  In the second, the
    value is an integer of 4301 digits: [repr] raises [ValueError] after the
    call's own draw, and again no span is emitted. *)
Lemma record_feedback_comment_not_included :
  record_feedback randomize_on upstream_message_key upstream_span_type_key
    W3C.TraceContextTextMapPropagator sample_float_repr sample_str_repr
    sample_traceparent "ok" (VBool true) (Some "looks good")
    (Some {[ "ok" := VInt 1 ]}) sample_world
  = (Raise AssertionError, sample_world)
  ∧ (¬ ∃ e w',
        record_feedback randomize_on upstream_message_key upstream_span_type_key
          W3C.TraceContextTextMapPropagator sample_float_repr sample_str_repr
          sample_traceparent "ok" (VBool true) (Some "looks good")
          (Some {[ "ok" := VInt 1 ]}) sample_world
        = (Ok (), w')
        ∧ emitted w' = emitted sample_world ++ [e]
        ∧ em_attributes e !! "logfire.feedback.comment" = Some (VStr "looks good"))
  ∧ record_feedback randomize_on upstream_message_key upstream_span_type_key
      W3C.TraceContextTextMapPropagator sample_float_repr sample_str_repr
      sample_traceparent "ok" (VInt (10 ^ 4300)) (Some "looks good") None
      sample_world
    = (Raise ValueError, after_draw randomize_on sample_world)
  ∧ emitted (after_draw randomize_on sample_world) = emitted sample_world.
Proof.
  assert (record_feedback randomize_on upstream_message_key upstream_span_type_key
            W3C.TraceContextTextMapPropagator sample_float_repr sample_str_repr
            sample_traceparent "ok" (VBool true) (Some "looks good")
            (Some {[ "ok" := VInt 1 ]}) sample_world
          = (Raise AssertionError, sample_world)) as Hrun.
  { eapply record_feedback_assertion. apply lookup_singleton_eq. }
  split; [exact Hrun|]. split; [|split].
  - intros (e & w' & Hok & _). rewrite Hrun in Hok. discriminate Hok.
  - apply record_feedback_unprintable; [intros x Hx; discriminate Hx|].
    apply repr_int_too_long.
  - apply after_draw_emitted.
Qed.

Lemma record_feedback_comment_witness :
  extra_admissible "ok" None
  ∧ repr sample_float_repr sample_str_repr (VBool true) = Ok "True"
  ∧ unreserved upstream_message_key upstream_span_type_key
      (feedback_decorated randomize_on "ok" (VBool true) (Some "looks good") None
         sample_world)
  ∧ ∃ e w',
      record_feedback randomize_on upstream_message_key upstream_span_type_key
        W3C.TraceContextTextMapPropagator sample_float_repr sample_str_repr
        sample_traceparent "ok" (VBool true) (Some "looks good") None sample_world
      = (Ok (), w')
      ∧ emitted w' = emitted sample_world ++ [e]
      ∧ em_attributes e !! "logfire.feedback.comment" = Some (VStr "looks good").
Proof.
  assert (extra_admissible "ok" None) as Hadm by (intros x Hx; discriminate Hx).
  assert (repr sample_float_repr sample_str_repr (VBool true) = Ok "True") as Hrepr
    by reflexivity.
  assert (unreserved upstream_message_key upstream_span_type_key
            (feedback_decorated randomize_on "ok" (VBool true) (Some "looks good")
               None sample_world)) as Hres.
  { split; vm_compute; reflexivity. }
  split; [exact Hadm|]. split; [exact Hrepr|]. split; [exact Hres|].
  destruct (record_feedback_comment randomize_on upstream_message_key
              upstream_span_type_key W3C.TraceContextTextMapPropagator
              sample_float_repr sample_str_repr sample_traceparent "ok"
              (VBool true) "True" (Some "looks good") None sample_world
              Hadm Hrepr Hres)
    as (e & w' & Hrun & Hem & Hc & _).
  - discriminate.
  - discriminate.
  - exists e, w'. refine (conj Hrun (conj Hem (Hc "looks good" eq_refl _))).
    discriminate.
Defined.

Lemma random_power_in_range_witness :
  RANDOMIZE randomize_on = true
  ∧ randint_contract (entropy sample_world (draws sample_world))
  ∧ ∃ attrs w' p,
      _random_attrs randomize_on sample_world = (Ok attrs, w')
      ∧ attrs !! "x-random-power" = Some (VInt p)
      ∧ (1 ≤ p ≤ 9000)%Z.
Proof.
  assert (randint_contract (entropy sample_world (draws sample_world))) as Hc.
  { intros a b Hab. cbn. lia. }
  split; [reflexivity|]. split; [exact Hc|].
  exact (random_power_in_range randomize_on sample_world eq_refl Hc).
Defined.

(** C10 (counterexample to the statement as written): randomization is
    enabled in all three calls.  In the first, [extra] binds [name]: the call
    fails on its assertion before either draw.  In the second, the value is
    an integer of 4301 digits: [repr] raises [ValueError] after the first
    draw and before the second.  In the third, neither draw produces the
    easter egg, but [extra] supplies that key, and the emitted span carries
    it. *)
Lemma record_feedback_no_draw_on_failure :
  RANDOMIZE randomize_on = true
  ∧ record_feedback randomize_on upstream_message_key upstream_span_type_key
      W3C.TraceContextTextMapPropagator sample_float_repr sample_str_repr
      sample_traceparent "score" (VInt 1) None (Some {[ "score" := VInt 2 ]})
      sample_world
    = (Raise AssertionError, sample_world)
  ∧ draws (record_feedback randomize_on upstream_message_key upstream_span_type_key
             W3C.TraceContextTextMapPropagator sample_float_repr sample_str_repr
             sample_traceparent "score" (VInt 1) None
             (Some {[ "score" := VInt 2 ]}) sample_world).2
    ≠ S (S (draws sample_world))
  ∧ record_feedback randomize_on upstream_message_key upstream_span_type_key
      W3C.TraceContextTextMapPropagator sample_float_repr sample_str_repr
      sample_traceparent "score" (VInt (10 ^ 4300)) None None sample_world
    = (Raise ValueError, after_draw randomize_on sample_world)
  ∧ draws (after_draw randomize_on sample_world) = S (draws sample_world)
  ∧ easter_egg sample_draw = false
  ∧ emits_key "x-random-easter-egg" sample_world
      (record_feedback randomize_on upstream_message_key upstream_span_type_key
         W3C.TraceContextTextMapPropagator sample_float_repr sample_str_repr
         sample_traceparent "score" (VInt 1) None
         (Some {[ "x-random-easter-egg" := VStr "mine" ]})
         (two_draws sample_draw sample_draw sample_world))
    = true.
Proof.
  assert (record_feedback randomize_on upstream_message_key upstream_span_type_key
            W3C.TraceContextTextMapPropagator sample_float_repr sample_str_repr
            sample_traceparent "score" (VInt 1) None
            (Some {[ "score" := VInt 2 ]}) sample_world
          = (Raise AssertionError, sample_world)) as Hrun.
  { eapply record_feedback_assertion. apply lookup_singleton_eq. }
  split; [reflexivity|]. split; [exact Hrun|].
  split; [rewrite Hrun; cbn; discriminate|].
  split.
  { apply record_feedback_unprintable; [intros x Hx; discriminate Hx|].
    apply repr_int_too_long. }
  split; [by rewrite after_draw_on|].
  split; [reflexivity|].
  apply (record_feedback_emits_supplied _ _ _ _ _ _ _ _ _ (pretty 1%Z)).
  - reflexivity.
  - intros x [= <-]. by apply lookup_singleton_ne.
  - apply repr_int_printable. lia.
  - apply feedback_decorated_unreserved;
      [apply upstream_message_key_fresh|apply upstream_span_type_key_fresh|].
    split; vm_compute; reflexivity.
  - vm_compute. by eexists.
Qed.

Lemma record_feedback_draws_twice_witness :
  RANDOMIZE randomize_on = true
  ∧ extra_admissible "score" None
  ∧ repr sample_float_repr sample_str_repr (VFloat 0.9) = Ok "0.9"
  ∧ draws (record_feedback randomize_on upstream_message_key upstream_span_type_key
             W3C.TraceContextTextMapPropagator sample_float_repr sample_str_repr
             sample_traceparent "score" (VFloat 0.9) None None sample_world).2
    = S (S (draws sample_world))
  ∧ (∃ e w',
       record_feedback randomize_on upstream_message_key upstream_span_type_key
         W3C.TraceContextTextMapPropagator sample_float_repr sample_str_repr
         sample_traceparent "score" (VFloat 0.9) None None sample_world
       = (Ok (), w')
       ∧ emitted w' = emitted sample_world ++ [e]
       ∧ em_attributes e !! "x-random-easter-egg"
         = Some (VStr "may_the_force_be_with_you"))
  ∧ 20 * length (List.filter easter_egg (lucky_draw :: repeat sample_draw 19))
    = length (lucky_draw :: repeat sample_draw 19)
  ∧ 400 * length
            (List.filter
               (λ p, emits_key "x-random-easter-egg" sample_world
                       (record_feedback randomize_on upstream_message_key
                          upstream_span_type_key W3C.TraceContextTextMapPropagator
                          sample_float_repr sample_str_repr sample_traceparent
                          "score" (VFloat 0.9) None None
                          (two_draws p.1 p.2 sample_world)))
               (list_prod (lucky_draw :: repeat sample_draw 19)
                  (lucky_draw :: repeat sample_draw 19)))
    = 39 * (length (lucky_draw :: repeat sample_draw 19)
            * length (lucky_draw :: repeat sample_draw 19)).
Proof.
  assert (extra_admissible "score" None) as Hadm by (intros x Hx; discriminate Hx).
  assert (repr sample_float_repr sample_str_repr (VFloat 0.9) = Ok "0.9") as Hrepr
    by reflexivity.
  assert (unreserved upstream_message_key upstream_span_type_key
            (feedback_attributes "score" (VFloat 0.9) None None)) as Hown.
  { split; vm_compute; reflexivity. }
  assert (feedback_attributes "score" (VFloat 0.9) None None
            !! "x-random-easter-egg" = None) as Hegg
    by (vm_compute; reflexivity).
  assert (20 * length (List.filter easter_egg (lucky_draw :: repeat sample_draw 19))
          = length (lucky_draw :: repeat sample_draw 19)) as Hfive
    by reflexivity.
  destruct (record_feedback_draws_twice randomize_on upstream_message_key
              upstream_span_type_key W3C.TraceContextTextMapPropagator
              sample_float_repr sample_str_repr sample_traceparent "score"
              (VFloat 0.9) "0.9" None None sample_world eq_refl Hadm Hrepr)
    as (_ & _ & Hdraws & Hemit & Hprob).
  destruct Hemit as (e & w' & Hrun & Hem & _ & _ & Hpresent).
  { apply feedback_decorated_unreserved;
      [apply upstream_message_key_fresh|apply upstream_span_type_key_fresh
      |exact Hown]. }
  split; [reflexivity|]. split; [exact Hadm|]. split; [exact Hrepr|].
  split; [exact Hdraws|]. split.
  { exists e, w'. refine (conj Hrun (conj Hem (Hpresent _))).
    right. rewrite decoration_easter_egg. vm_compute. by eexists. }
  split; [exact Hfive|].
  exact (proj2 (Hprob upstream_message_key_fresh upstream_span_type_key_fresh
                  Hown Hegg (lucky_draw :: repeat sample_draw 19)) Hfive).
Defined.

(** * Further properties of the module *)

(** ** The randomization switch and the decoration *)

(** X1: randomization is disabled exactly when [LOGFIRE_RANDOMIZE] is set to
    a value whose lowercase form is ["0"], ["false"] or ["no"]; an unset
    variable and every other value leave it enabled. *)
Theorem RANDOMIZE_disabled_iff (environ : gmap string string) :
  RANDOMIZE environ = false
  ↔ ∃ v, environ !! "LOGFIRE_RANDOMIZE" = Some v
         ∧ lower v ∈ ["0"; "false"; "no"].
Proof.
  unfold RANDOMIZE. rewrite negb_false_iff, bool_decide_eq_true.
  destruct (environ !! "LOGFIRE_RANDOMIZE") as [v|]; cbn.
  - split; [by eauto|]. by intros (? & [= <-] & ?).
  - split; [|by intros (? & ? & ?)].
    intros H. exfalso.
    repeat (apply elem_of_cons in H as [H|H]; [discriminate H|]).
    by apply elem_of_nil in H.
Qed.

(** X2: [_random_attrs] never raises and never emits.  With randomization
    disabled it returns the empty map and reads no random source; enabled, it
    uses up exactly one round of answers. *)
Theorem _random_attrs_effects (environ : gmap string string) w :
  ∃ attrs w',
    _random_attrs environ w = (Ok attrs, w')
    ∧ emitted w' = emitted w
    ∧ entropy w' = entropy w
    ∧ (if RANDOMIZE environ then draws w' = S (draws w)
       else attrs = ∅ ∧ w' = w).
Proof.
  eexists _, _. rewrite _random_attrs_run. split; [done|].
  rewrite after_draw_emitted, after_draw_entropy. split; [done|]. split; [done|].
  destruct (RANDOMIZE environ) eqn:Hr.
  - by rewrite after_draw_on.
  - by rewrite decoration_off, after_draw_off.
Qed.

Lemma decoration_dom (environ : gmap string string) w :
  RANDOMIZE environ = true →
  dom (decoration environ w)
  = base_decorative_keys
    ∪ (if (random_random (entropy w (draws w)) <? 0.05)%float
       then {[ "x-random-easter-egg" ]} else ∅).
Proof.
  intros H. unfold decoration, _random_attrs, base_decorative_keys.
  rewrite H. run_M.
  destruct (_ <? _)%float; rewrite !dom_insert_L, dom_singleton_L; set_solver.
Qed.

Lemma decorative_key_prefix k :
  k ∈ decorative_keys → String.prefix "x-random-" k = true.
Proof.
  unfold decorative_keys. rewrite !elem_of_union, !elem_of_singleton.
  intros [[[[[->| ->]| ->]| ->]| ->]| ->]; reflexivity.
Qed.

(** X3: with randomization enabled, the keys of the decoration are exactly
    the five fixed ones, plus ["x-random-easter-egg"] exactly when
    [random.random()] fell below 0.05; every one of them starts with
    ["x-random-"]. *)
Theorem _random_attrs_keys (environ : gmap string string) w :
  RANDOMIZE environ = true →
  ∃ attrs w',
    _random_attrs environ w = (Ok attrs, w')
    ∧ dom attrs
      = base_decorative_keys
        ∪ (if (random_random (entropy w (draws w)) <? 0.05)%float
           then {[ "x-random-easter-egg" ]} else ∅)
    ∧ ∀ k, k ∈ dom attrs → String.prefix "x-random-" k = true.
Proof.
  intros H. eexists _, _. rewrite _random_attrs_run.
  split; [done|]. split; [by apply decoration_dom|].
  intros k Hk. apply decorative_key_prefix, (decoration_keys environ w).
  by apply elem_of_dom.
Qed.

Lemma decoration_emoji (environ : gmap string string) w :
  RANDOMIZE environ = true →
  decoration environ w !! "x-random-emoji"
  = Some (VStr (random_choice (entropy w (draws w)) emojis)).
Proof.
  intros H. unfold decoration, _random_attrs. rewrite H. run_M.
  by destruct (_ <? _)%float; simplify_map_eq.
Qed.

Lemma decoration_seed (environ : gmap string string) w :
  RANDOMIZE environ = true →
  decoration environ w !! "x-random-seed"
  = Some (VInt (random_getrandbits (entropy w (draws w)) 32)).
Proof.
  intros H. unfold decoration, _random_attrs. rewrite H. run_M.
  by destruct (_ <? _)%float; simplify_map_eq.
Qed.

(** X4: with randomization enabled and random sources that honour the
    contracts of [random.choice] and [random.getrandbits], the decoration's
    ["x-random-emoji"] is one of the nine listed emojis and its
    ["x-random-seed"] is an integer of at most 32 bits. *)
Theorem _random_attrs_emoji_seed (environ : gmap string string) w :
  RANDOMIZE environ = true →
  choice_contract (entropy w (draws w)) →
  getrandbits_contract (entropy w (draws w)) →
  ∃ attrs w' emoji seed,
    _random_attrs environ w = (Ok attrs, w')
    ∧ attrs !! "x-random-emoji" = Some (VStr emoji)
    ∧ emoji ∈ emojis
    ∧ attrs !! "x-random-seed" = Some (VInt seed)
    ∧ (0 ≤ seed < 2 ^ 32)%Z.
Proof.
  intros H Hchoice Hbits. eexists _, _, _, _. rewrite _random_attrs_run.
  split; [done|]. split; [by apply decoration_emoji|].
  split; [by apply Hchoice|]. split; [by apply decoration_seed|].
  by apply Hbits.
Qed.

(** ** The annotator *)

Section AnnotatorFurther.
Context (environ : gmap string string).
Context (ATTRIBUTES_MESSAGE_KEY ATTRIBUTES_SPAN_TYPE_KEY : string).
Context (TRACEPARENT_PROPAGATOR : TextMapPropagator).
Context (float_repr : float → string) (str_repr : string → string).

Local Abbreviation annotate :=
  (raw_annotate_span environ ATTRIBUTES_MESSAGE_KEY ATTRIBUTES_SPAN_TYPE_KEY
     TRACEPARENT_PROPAGATOR).
Local Abbreviation feedback :=
  (record_feedback environ ATTRIBUTES_MESSAGE_KEY ATTRIBUTES_SPAN_TYPE_KEY
     TRACEPARENT_PROPAGATOR float_repr str_repr).
Local Abbreviation keys_unreserved :=
  (unreserved ATTRIBUTES_MESSAGE_KEY ATTRIBUTES_SPAN_TYPE_KEY).

(** X5: [raw_annotate_span] raises [TypeError] exactly when the caller's
    attributes or the decoration bind one of the two reserved keys; it then
    emits nothing.  It never raises [AssertionError]. *)
Theorem raw_annotate_span_failure traceparent span_name message
    (attributes : gmap string Any) w :
  ((annotate traceparent span_name message attributes w).1 = Raise TypeError
   ↔ ¬ keys_unreserved (decoration environ w ∪ attributes))
  ∧ ((annotate traceparent span_name message attributes w).1 = Raise TypeError →
     emitted (annotate traceparent span_name message attributes w).2 = emitted w)
  ∧ (annotate traceparent span_name message attributes w).1 ≠ Raise AssertionError.
Proof.
  rewrite raw_annotate_span_run. cbn zeta. case_decide as Hres; cbn.
  - apply reserved_disjoint in Hres. split; [|split]; [|done|done].
    split; [done|]. by intros [].
  - split; [|split]; [|by rewrite after_draw_emitted|done].
    split; [|done]. intros _ Hun. by apply Hres, reserved_disjoint.
Qed.

(** X6: when no attribute key is reserved and the two reserved keys differ,
    [raw_annotate_span] emits exactly one event: through the ["feedback"]
    logger at level info, under the context extracted from the traceparent,
    named [span_name], with the message under the message key and
    ["annotation"] under the span-type key. *)
Theorem raw_annotate_span_event traceparent span_name message
    (attributes : gmap string Any) w :
  ATTRIBUTES_MESSAGE_KEY ≠ ATTRIBUTES_SPAN_TYPE_KEY →
  keys_unreserved (decoration environ w ∪ attributes) →
  ∃ e w',
    annotate traceparent span_name message attributes w = (Ok (), w')
    ∧ emitted w' = emitted w ++ [e]
    ∧ em_scope_suffix e = "feedback"
    ∧ em_level e = "info"
    ∧ em_parent e
      = extract TRACEPARENT_PROPAGATOR {[ TRACEPARENT_NAME := traceparent ]}
    ∧ em_name e = span_name
    ∧ em_attributes e !! ATTRIBUTES_MESSAGE_KEY = Some (VStr message)
    ∧ em_attributes e !! ATTRIBUTES_SPAN_TYPE_KEY = Some (VStr "annotation").
Proof.
  intros Hne Hres. eexists _, _. rewrite raw_annotate_span_run. cbn zeta.
  rewrite decide_True by by apply reserved_disjoint.
  split; [done|]. rewrite emitted_emit, after_draw_emitted.
  do 5 (split; [done|]). destruct Hres as [Hm Ht]. split.
  - by apply event_lookup_message.
  - cbn. rewrite lookup_union_r by done. apply reserved_span_type.
Qed.


(** ** The feedback recorder *)

(** X10: [record_feedback] raises [AssertionError] exactly when [extra] is
    given and binds [name]; a missing or empty [extra] never does. *)
Theorem record_feedback_assertion_iff traceparent name value comment extra w :
  (record_feedback environ ATTRIBUTES_MESSAGE_KEY ATTRIBUTES_SPAN_TYPE_KEY
     TRACEPARENT_PROPAGATOR float_repr str_repr
     traceparent name value comment extra w).1 = Raise AssertionError
  ↔ ∃ x, extra = Some x ∧ is_Some (x !! name).
Proof.
  split.
  - intros Hfail.
    assert (extra_admissible name extra
            ∨ ∃ x, extra = Some x ∧ is_Some (x !! name)) as Hcases.
    { destruct extra as [x|]; [|by left].
      destruct (x !! name) as [v|] eqn:Hx; [by eauto|].
      left. by intros ? [= <-]. }
    destruct Hcases as [Hadm|Hbound]; [|exact Hbound].
    exfalso. destruct (repr float_repr str_repr value) as [r|e] eqn:Hrepr.
    + rewrite (record_feedback_run _ _ _ _ _ _ _ _ _ r), raw_annotate_span_run
        in Hfail by done.
      cbn zeta in Hfail. by case_decide.
    + rewrite (record_feedback_unprintable _ _ _ _ _ _ _ _ _ e) in Hfail by done.
      apply repr_raises_ValueError in Hrepr as ->. discriminate Hfail.
  - intros (x & -> & [v Hv]). by erewrite record_feedback_assertion.
Qed.

Lemma feedback_attributes_lookup name value comment extra k :
  feedback_attributes name value comment extra !! k
  = if bool_decide (k = "logfire.feedback.comment")
       && truthy_str (default "" comment)
    then Some (VStr (default "" comment))
    else match default ∅ extra !! k with
         | Some v => Some v
         | None =>
             if bool_decide (k = name) then Some value
             else if bool_decide (k = "logfire.feedback.name")
                  then Some (VStr name)
                  else None
         end.
Proof.
  assert ((default ∅ extra
             ∪ <[name := value]> {[ "logfire.feedback.name" := VStr name ]}) !! k
          = match default ∅ extra !! k with
            | Some v => Some v
            | None =>
                if bool_decide (k = name) then Some value
                else if bool_decide (k = "logfire.feedback.name")
                     then Some (VStr name)
                     else None
            end) as Hbase.
  { rewrite lookup_union. destruct (default ∅ extra !! k) as [v|]; cbn.
    - by destruct (_ !! k).
    - rewrite (left_id_L None union). case_bool_decide as Hn.
      + subst k. by rewrite lookup_insert_eq.
      + rewrite lookup_insert_ne by done. case_bool_decide as Hl.
        * subst k. by rewrite lookup_singleton_eq.
        * by rewrite lookup_singleton_ne. }
  unfold feedback_attributes.
  destruct comment as [c|]; cbn [from_option id]; [|by rewrite andb_false_r, Hbase].
  destruct (truthy_str c) eqn:Hc; [|by rewrite andb_false_r, Hbase].
  rewrite andb_true_r.
  destruct (decide (k = "logfire.feedback.comment")) as [->|Hk].
  - by rewrite bool_decide_eq_true_2, lookup_insert_eq.
  - by rewrite bool_decide_eq_false_2, lookup_insert_ne, Hbase.
Qed.

(** X11: the order in which [record_feedback] lets its sources win, for a
    call whose assertion holds, whose value [repr] prints without raising and
    none of whose keys is reserved.  For a key that is neither decorative nor
    reserved, the emitted span holds the
    comment if the key is ["logfire.feedback.comment"] and the comment is
    non-empty; else what [extra] binds it to; else the value if the key is
    [name]; else the name if the key is ["logfire.feedback.name"]; else
    nothing.  In particular [extra] may overwrite ["logfire.feedback.name"]. *)
Theorem record_feedback_precedence traceparent name value value_repr comment
    extra w k :
  extra_admissible name extra →
  repr float_repr str_repr value = Ok value_repr →
  keys_unreserved (feedback_decorated environ name value comment extra w) →
  k ∉ decorative_keys →
  k ≠ ATTRIBUTES_MESSAGE_KEY →
  k ≠ ATTRIBUTES_SPAN_TYPE_KEY →
  ∃ e w',
    feedback traceparent name value comment extra w = (Ok (), w')
    ∧ emitted w' = emitted w ++ [e]
    ∧ em_attributes e !! k
      = if bool_decide (k = "logfire.feedback.comment")
           && truthy_str (default "" comment)
        then Some (VStr (default "" comment))
        else match default ∅ extra !! k with
             | Some v => Some v
             | None =>
                 if bool_decide (k = name) then Some value
                 else if bool_decide (k = "logfire.feedback.name")
                      then Some (VStr name)
                      else None
             end.
Proof.
  intros Hadm Hrepr Hres Hk Hm Ht. eexists _, _.
  rewrite (record_feedback_emits _ _ _ _ _ _ _ _ _ value_repr) by done.
  split; [done|]. rewrite emitted_emit, !after_draw_emitted. split; [done|].
  cbn. rewrite lookup_union, reserved_other, (right_id_L None union) by done.
  rewrite feedback_decorated_plain by done. apply feedback_attributes_lookup.
Qed.

(** X12: with randomization disabled, a call of [record_feedback] whose
    assertion holds is the call of [raw_annotate_span] on the attributes
    assembled from its arguments, with the name ["feedback: " + name] and the
    message ["feedback: " + name + " = " + repr(value)]; when [repr(value)]
    raises, the call raises the same exception and changes nothing. *)
Theorem record_feedback_is_annotation traceparent name value comment extra w :
  RANDOMIZE environ = false →
  extra_admissible name extra →
  match repr float_repr str_repr value with
  | Ok value_repr =>
      feedback traceparent name value comment extra w
      = annotate traceparent ("feedback: " +:+ name)
          ("feedback: " +:+ name +:+ " = " +:+ value_repr)
          (feedback_attributes name value comment extra) w
  | Raise e =>
      feedback traceparent name value comment extra w = (Raise e, w)
  end.
Proof.
  intros Hoff Hadm. destruct (repr float_repr str_repr value) as [r|e] eqn:Hrepr.
  - rewrite (record_feedback_run _ _ _ _ _ _ _ _ _ r) by done.
    by rewrite decoration_off, after_draw_off, (left_id_L ∅ (∪)).
  - rewrite (record_feedback_unprintable _ _ _ _ _ _ _ _ _ e) by done.
    by rewrite after_draw_off.
Qed.

(** X13: whatever its arguments, a call of [record_feedback] leaves the
    spans emitted before it untouched and adds at most one, which it adds
    exactly when it returns normally; it reads the random sources at most
    twice, and not at all with randomization disabled. *)
Theorem record_feedback_frame traceparent name value comment extra w :
  ∃ added,
    emitted (feedback traceparent name value comment extra w).2
    = emitted w ++ added
    ∧ (length added ≤ 1)%nat
    ∧ (added = []
       ↔ (feedback traceparent name value comment extra w).1 ≠ Ok ())
    ∧ entropy (feedback traceparent name value comment extra w).2 = entropy w
    ∧ (draws w ≤ draws (feedback traceparent name value comment extra w).2
       ≤ draws w + 2)%nat
    ∧ (RANDOMIZE environ = false →
       draws (feedback traceparent name value comment extra w).2 = draws w).
Proof.
  assert (entropy (after_draw environ (after_draw environ w)) = entropy w) as He
    by by rewrite !after_draw_entropy.
  assert ((draws w ≤ draws (after_draw environ (after_draw environ w))
           ≤ draws w + 2)%nat
          ∧ (RANDOMIZE environ = false →
             draws (after_draw environ (after_draw environ w)) = draws w)) as [Hd Hoff].
  { destruct (RANDOMIZE environ) eqn:Hr.
    - rewrite !after_draw_on by done. cbn. split; [lia|done].
    - rewrite !after_draw_off by done. split; [lia|done]. }
  destruct (record_feedback_outcomes environ ATTRIBUTES_MESSAGE_KEY
              ATTRIBUTES_SPAN_TYPE_KEY TRACEPARENT_PROPAGATOR float_repr str_repr
              traceparent name value comment extra w)
    as [->|[[_ ->]|[->|(r & _ & _ & ->)]]]; cbn [fst snd].
  - exists []. rewrite app_nil_r. repeat split; try done; cbn; lia.
  - exists []. rewrite app_nil_r, after_draw_emitted, after_draw_entropy.
    split; [done|]. split; [cbn; lia|]. split; [done|]. split; [done|].
    destruct (RANDOMIZE environ) eqn:Hr.
    + rewrite after_draw_on by done. cbn. split; [lia|done].
    + rewrite after_draw_off by done. split; [lia|done].
  - exists []. rewrite app_nil_r, after_draw_emitted, after_draw_emitted.
    repeat split; try done; cbn; lia.
  - eexists [_]. rewrite emitted_emit, !after_draw_emitted.
    split; [done|]. split; [cbn; lia|]. split; [|done].
    split; [discriminate|]. by intros [].
Qed.
End AnnotatorFurther.

(** ** Calls in sequence *)

Section Sequence.
Context (environ : gmap string string).
Context (ATTRIBUTES_MESSAGE_KEY ATTRIBUTES_SPAN_TYPE_KEY : string).
Context (float_repr : float → string) (str_repr : string → string).

Local Abbreviation feedback :=
  (record_feedback environ ATTRIBUTES_MESSAGE_KEY ATTRIBUTES_SPAN_TYPE_KEY
     W3C.TraceContextTextMapPropagator float_repr str_repr).
Local Abbreviation keys_unreserved :=
  (unreserved ATTRIBUTES_MESSAGE_KEY ATTRIBUTES_SPAN_TYPE_KEY).

Lemma record_feedback_event_plain (TRACEPARENT_PROPAGATOR : TextMapPropagator)
    traceparent name value value_repr comment extra w k :
  k ∉ decorative_keys →
  k ≠ ATTRIBUTES_MESSAGE_KEY →
  k ≠ ATTRIBUTES_SPAN_TYPE_KEY →
  em_attributes
    (annotation_event ATTRIBUTES_MESSAGE_KEY ATTRIBUTES_SPAN_TYPE_KEY
       TRACEPARENT_PROPAGATOR traceparent ("feedback: " +:+ name)
       ("feedback: " +:+ name +:+ " = " +:+ value_repr)
       (feedback_decorated environ name value comment extra w)) !! k
  = feedback_attributes name value comment extra !! k.
Proof.
  intros Hk Hm Ht. cbn.
  rewrite lookup_union, reserved_other, (right_id_L None union) by done.
  by apply feedback_decorated_plain.
Qed.

(** X14: two calls of [record_feedback], one after the other, on the
    traceparent [get_traceparent] returned for a live span, each with its
    assertion holding, a value that [repr] prints and no reserved key among
    its own keys (the reserved keys not being decorative ones), emit two
    spans in call order; both are emitted under a context that carries the
    trace id and span id of that span; and the attributes of each span
    outside the decorative keys are the ones assembled from the arguments of
    its own call, whatever the other call passed. *)
Theorem record_feedback_twice span s
    name1 value1 value_repr1 comment1 extra1
    name2 value2 value_repr2 comment2 extra2 w :
  underlying span = Some s →
  live s →
  ATTRIBUTES_MESSAGE_KEY ∉ decorative_keys →
  ATTRIBUTES_SPAN_TYPE_KEY ∉ decorative_keys →
  extra_admissible name1 extra1 →
  extra_admissible name2 extra2 →
  repr float_repr str_repr value1 = Ok value_repr1 →
  repr float_repr str_repr value2 = Ok value_repr2 →
  keys_unreserved (feedback_attributes name1 value1 comment1 extra1) →
  keys_unreserved (feedback_attributes name2 value2 comment2 extra2) →
  ∃ traceparent e1 e2 w1 w2 parent,
    get_traceparent W3C.TraceContextTextMapPropagator span = Ok traceparent
    ∧ feedback traceparent name1 value1 comment1 extra1 w = (Ok (), w1)
    ∧ feedback traceparent name2 value2 comment2 extra2 w1 = (Ok (), w2)
    ∧ emitted w2 = emitted w ++ [e1; e2]
    ∧ em_name e1 = "feedback: " +:+ name1
    ∧ em_name e2 = "feedback: " +:+ name2
    ∧ em_parent e1 = Some parent
    ∧ em_parent e2 = Some parent
    ∧ trace_id (get_span_context parent) = trace_id (get_span_context s)
    ∧ span_id (get_span_context parent) = span_id (get_span_context s)
    ∧ ∀ k, k ∉ decorative_keys →
           k ≠ ATTRIBUTES_MESSAGE_KEY →
           k ≠ ATTRIBUTES_SPAN_TYPE_KEY →
           em_attributes e1 !! k
           = feedback_attributes name1 value1 comment1 extra1 !! k
           ∧ em_attributes e2 !! k
             = feedback_attributes name2 value2 comment2 extra2 !! k.
Proof.
  intros Hs Hlive Hm Ht Hadm1 Hadm2 Hrepr1 Hrepr2 Hres1 Hres2.
  eexists _, _, _, _, _, _.
  split; [by apply W3C_get_traceparent|].
  split; [by apply (record_feedback_emits _ _ _ _ _ _ _ _ _ value_repr1),
             feedback_decorated_unreserved|].
  split; [by apply (record_feedback_emits _ _ _ _ _ _ _ _ _ value_repr2),
             feedback_decorated_unreserved|].
  rewrite !emitted_emit, !after_draw_emitted, emitted_emit, !after_draw_emitted.
  rewrite <-app_assoc. split; [done|]. do 2 (split; [done|]).
  split.
  { cbn [em_parent annotation_event extract W3C.TraceContextTextMapPropagator].
    by apply W3C_extract_traceparent. }
  split.
  { cbn [em_parent annotation_event extract W3C.TraceContextTextMapPropagator].
    by apply W3C_extract_traceparent. }
  do 2 (split; [done|]).
  intros k Hk Hkm Hkt. split; by apply record_feedback_event_plain.
Qed.
End Sequence.

(** ** From a span to its annotation *)

Lemma W3C_traceparent_string_nonempty sc : W3C.traceparent_string sc ≠ "".
Proof. unfold W3C.traceparent_string. cbn. discriminate. Qed.

(** X8: with the W3C propagator, [get_traceparent] returns the empty string
    exactly for a span whose context is the invalid span context. *)
Theorem W3C_get_traceparent_empty_iff span :
  get_traceparent W3C.TraceContextTextMapPropagator span = Ok ""
  ↔ ∃ s, underlying span = Some s ∧ get_span_context s = INVALID_SPAN_CONTEXT.
Proof.
  destruct (underlying span) as [s|] eqn:Hs.
  - rewrite (get_traceparent_run _ span s) by done.
    cbn [inject W3C.TraceContextTextMapPropagator].
    unfold W3C.inject, set_span_in_context, get_current_span.
    change W3C._TRACEPARENT_HEADER_NAME with TRACEPARENT_NAME.
    case_decide as Hinv; cbn zeta.
    + rewrite lookup_empty. split; [by eauto|done].
    + assert (∀ t : string, Ok (A:=string) t = Ok "" → t = "") as Hinj
        by (by intros t [= ->]).
      split.
      * intros Heq. exfalso. apply Hinj in Heq. revert Heq.
        destruct (truthy_str _).
        -- rewrite lookup_insert_ne, lookup_insert_eq by done. cbn.
           apply W3C_traceparent_string_nonempty.
        -- rewrite lookup_insert_eq. cbn. apply W3C_traceparent_string_nonempty.
      * intros (s' & [= <-] & Hs'). by destruct Hinv.
  - split; [|by intros (? & ? & _)].
    destruct span as [s|[o]]; cbn in Hs; [done|]. subst o. by cbn.
Qed.

(** X9: the string [get_traceparent] returns for a live span, passed to
    [raw_annotate_span] with attributes none of whose keys is reserved, makes
    the emitted span a child of that very span: the context it is emitted
    under carries the span's trace id, span id and flags, marked remote. *)
Theorem annotation_attached_to_span (environ : gmap string string)
    (ATTRIBUTES_MESSAGE_KEY ATTRIBUTES_SPAN_TYPE_KEY : string)
    span s span_name message (attributes : gmap string Any) w :
  underlying span = Some s →
  live s →
  unreserved ATTRIBUTES_MESSAGE_KEY ATTRIBUTES_SPAN_TYPE_KEY
    (decoration environ w ∪ attributes) →
  ∃ traceparent e w' parent,
    get_traceparent W3C.TraceContextTextMapPropagator span = Ok traceparent
    ∧ raw_annotate_span environ ATTRIBUTES_MESSAGE_KEY ATTRIBUTES_SPAN_TYPE_KEY
        W3C.TraceContextTextMapPropagator traceparent span_name message
        attributes w = (Ok (), w')
    ∧ emitted w' = emitted w ++ [e]
    ∧ em_parent e = Some parent
    ∧ trace_id (get_span_context parent) = trace_id (get_span_context s)
    ∧ span_id (get_span_context parent) = span_id (get_span_context s)
    ∧ trace_flags (get_span_context parent) = trace_flags (get_span_context s)
    ∧ is_remote (get_span_context parent) = true.
Proof.
  intros Hs Hlive Hres. eexists _, _, _, _.
  split; [by apply W3C_get_traceparent|].
  rewrite raw_annotate_span_run. cbn zeta.
  rewrite decide_True by by apply reserved_disjoint.
  split; [done|]. rewrite emitted_emit, after_draw_emitted. split; [done|].
  split.
  - cbn [em_parent annotation_event extract W3C.TraceContextTextMapPropagator].
    by apply W3C_extract_traceparent.
  - done.
Qed.

(** ** Closed instances of the further properties *)

Lemma sample_attributes_unreserved :
  unreserved upstream_message_key upstream_span_type_key
    (decoration randomize_on sample_world ∪ {[ "author" := VStr "ada" ]}).
Proof.
  split; apply lookup_union_None; (split; [|by apply lookup_singleton_ne]);
    apply decoration_fresh;
    [apply upstream_message_key_fresh|apply upstream_span_type_key_fresh].
Qed.


Lemma _random_attrs_keys_witness :
  RANDOMIZE randomize_on = true
  ∧ ∃ attrs w',
      _random_attrs randomize_on sample_world = (Ok attrs, w')
      ∧ dom attrs
        = base_decorative_keys
          ∪ (if (random_random (entropy sample_world (draws sample_world))
                 <? 0.05)%float
             then {[ "x-random-easter-egg" ]} else ∅)
      ∧ ∀ k, k ∈ dom attrs → String.prefix "x-random-" k = true.
Proof.
  split; [reflexivity|].
  exact (_random_attrs_keys randomize_on sample_world eq_refl).
Defined.

Lemma _random_attrs_emoji_seed_witness :
  RANDOMIZE randomize_on = true
  ∧ choice_contract (entropy sample_world (draws sample_world))
  ∧ getrandbits_contract (entropy sample_world (draws sample_world))
  ∧ ∃ attrs w' emoji seed,
      _random_attrs randomize_on sample_world = (Ok attrs, w')
      ∧ attrs !! "x-random-emoji" = Some (VStr emoji)
      ∧ emoji ∈ emojis
      ∧ attrs !! "x-random-seed" = Some (VInt seed)
      ∧ (0 ≤ seed < 2 ^ 32)%Z.
Proof.
  assert (choice_contract (entropy sample_world (draws sample_world))) as Hc.
  { intros [|x seq] Hne; [by destruct Hne|]. cbn. apply list_elem_of_here. }
  assert (getrandbits_contract (entropy sample_world (draws sample_world))) as Hb.
  { intros k Hk. cbn. split; [lia|]. by apply Z.pow_pos_nonneg. }
  split; [reflexivity|]. split; [exact Hc|]. split; [exact Hb|].
  exact (_random_attrs_emoji_seed randomize_on sample_world eq_refl Hc Hb).
Defined.

Lemma raw_annotate_span_event_witness :
  upstream_message_key ≠ upstream_span_type_key
  ∧ unreserved upstream_message_key upstream_span_type_key
      (decoration randomize_on sample_world ∪ {[ "author" := VStr "ada" ]})
  ∧ ∃ e w',
      raw_annotate_span randomize_on upstream_message_key upstream_span_type_key
        W3C.TraceContextTextMapPropagator sample_traceparent "note" "hello"
        {[ "author" := VStr "ada" ]} sample_world = (Ok (), w')
      ∧ emitted w' = emitted sample_world ++ [e]
      ∧ em_scope_suffix e = "feedback"
      ∧ em_level e = "info"
      ∧ em_parent e
        = extract W3C.TraceContextTextMapPropagator
            {[ TRACEPARENT_NAME := sample_traceparent ]}
      ∧ em_name e = "note"
      ∧ em_attributes e !! upstream_message_key = Some (VStr "hello")
      ∧ em_attributes e !! upstream_span_type_key = Some (VStr "annotation").
Proof.
  assert (upstream_message_key ≠ upstream_span_type_key) as Hne by discriminate.
  split; [exact Hne|]. split; [exact sample_attributes_unreserved|].
  exact (raw_annotate_span_event randomize_on upstream_message_key
           upstream_span_type_key W3C.TraceContextTextMapPropagator
           sample_traceparent "note" "hello" {[ "author" := VStr "ada" ]}
           sample_world Hne sample_attributes_unreserved).
Defined.


Lemma annotation_attached_to_span_witness :
  underlying (OfLogfireSpan (mkLogfireSpan (Some sample_span))) = Some sample_span
  ∧ live sample_span
  ∧ ∃ traceparent e w' parent,
      get_traceparent W3C.TraceContextTextMapPropagator
        (OfLogfireSpan (mkLogfireSpan (Some sample_span))) = Ok traceparent
      ∧ raw_annotate_span randomize_on upstream_message_key upstream_span_type_key
          W3C.TraceContextTextMapPropagator traceparent "note" "hello"
          {[ "author" := VStr "ada" ]} sample_world = (Ok (), w')
      ∧ emitted w' = emitted sample_world ++ [e]
      ∧ em_parent e = Some parent
      ∧ trace_id (get_span_context parent) = trace_id (get_span_context sample_span)
      ∧ span_id (get_span_context parent) = span_id (get_span_context sample_span)
      ∧ trace_flags (get_span_context parent)
        = trace_flags (get_span_context sample_span)
      ∧ is_remote (get_span_context parent) = true.
Proof.
  assert (live sample_span) as Hlive.
  { unfold live, is_valid, sample_span. cbn. lia. }
  split; [reflexivity|]. split; [exact Hlive|].
  exact (annotation_attached_to_span randomize_on upstream_message_key
           upstream_span_type_key
           (OfLogfireSpan (mkLogfireSpan (Some sample_span))) sample_span
           "note" "hello" {[ "author" := VStr "ada" ]} sample_world
           eq_refl Hlive sample_attributes_unreserved).
Defined.

Lemma sample_feedback_admissible :
  extra_admissible "score"
    (Some {[ "logfire.feedback.name" := VStr "shadow"; "model" := VStr "m1" ]}).
Proof.
  intros x [= <-]. by rewrite lookup_insert_ne, lookup_singleton_ne.
Qed.

Lemma sample_feedback_unreserved :
  unreserved upstream_message_key upstream_span_type_key
    (feedback_attributes "score" (VInt 7) (Some "fine")
       (Some {[ "logfire.feedback.name" := VStr "shadow"; "model" := VStr "m1" ]})).
Proof. split; vm_compute; reflexivity. Qed.

Lemma record_feedback_precedence_witness :
  extra_admissible "score"
    (Some {[ "logfire.feedback.name" := VStr "shadow"; "model" := VStr "m1" ]})
  ∧ repr sample_float_repr sample_str_repr (VInt 7) = Ok "7"
  ∧ ∃ e w',
      record_feedback randomize_on upstream_message_key upstream_span_type_key
        W3C.TraceContextTextMapPropagator sample_float_repr sample_str_repr
        sample_traceparent "score" (VInt 7) (Some "fine")
        (Some {[ "logfire.feedback.name" := VStr "shadow"; "model" := VStr "m1" ]})
        sample_world = (Ok (), w')
      ∧ emitted w' = emitted sample_world ++ [e]
      ∧ em_attributes e !! "logfire.feedback.name" = Some (VStr "shadow").
Proof.
  assert (repr sample_float_repr sample_str_repr (VInt 7) = Ok "7") as Hrepr
    by (apply (repr_int_printable _ _ 7); lia).
  split; [exact sample_feedback_admissible|]. split; [exact Hrepr|].
  destruct (record_feedback_precedence randomize_on upstream_message_key
              upstream_span_type_key W3C.TraceContextTextMapPropagator
              sample_float_repr sample_str_repr sample_traceparent "score"
              (VInt 7) "7" (Some "fine")
              (Some {[ "logfire.feedback.name" := VStr "shadow";
                       "model" := VStr "m1" ]})
              sample_world "logfire.feedback.name" sample_feedback_admissible
              Hrepr)
    as (e & w' & Hrun & Hem & Hk).
  - split; (rewrite feedback_decorated_plain;
            [apply sample_feedback_unreserved|]);
      [apply upstream_message_key_fresh|apply upstream_span_type_key_fresh].
  - unfold decorative_keys. set_solver.
  - discriminate.
  - discriminate.
  - exists e, w'. refine (conj Hrun (conj Hem _)).
    rewrite Hk. vm_compute. reflexivity.
Defined.

Lemma record_feedback_is_annotation_witness :
  RANDOMIZE randomize_off = false
  ∧ extra_admissible "ok" None
  ∧ record_feedback randomize_off upstream_message_key upstream_span_type_key
      W3C.TraceContextTextMapPropagator sample_float_repr sample_str_repr
      sample_traceparent "ok" (VBool true) (Some "looks good") None sample_world
    = raw_annotate_span randomize_off upstream_message_key upstream_span_type_key
        W3C.TraceContextTextMapPropagator sample_traceparent
        ("feedback: " +:+ "ok") ("feedback: " +:+ "ok" +:+ " = " +:+ "True")
        (feedback_attributes "ok" (VBool true) (Some "looks good") None)
        sample_world.
Proof.
  assert (extra_admissible "ok" None) as Hadm by (intros x Hx; discriminate Hx).
  split; [reflexivity|]. split; [exact Hadm|].
  exact (record_feedback_is_annotation randomize_off upstream_message_key
           upstream_span_type_key W3C.TraceContextTextMapPropagator
           sample_float_repr sample_str_repr sample_traceparent "ok"
           (VBool true) (Some "looks good") None sample_world eq_refl Hadm).
Defined.

Lemma record_feedback_twice_witness :
  underlying (OfSpan sample_span) = Some sample_span
  ∧ live sample_span
  ∧ extra_admissible "score" None
  ∧ extra_admissible "ok" None
  ∧ repr sample_float_repr sample_str_repr (VInt 7) = Ok "7"
  ∧ repr sample_float_repr sample_str_repr (VBool true) = Ok "True"
  ∧ ∃ traceparent e1 e2 w1 w2 parent,
      get_traceparent W3C.TraceContextTextMapPropagator (OfSpan sample_span)
      = Ok traceparent
      ∧ record_feedback randomize_on upstream_message_key upstream_span_type_key
          W3C.TraceContextTextMapPropagator sample_float_repr sample_str_repr
          traceparent "score" (VInt 7) None None sample_world = (Ok (), w1)
      ∧ record_feedback randomize_on upstream_message_key upstream_span_type_key
          W3C.TraceContextTextMapPropagator sample_float_repr sample_str_repr
          traceparent "ok" (VBool true) (Some "looks good") None w1
        = (Ok (), w2)
      ∧ emitted w2 = emitted sample_world ++ [e1; e2]
      ∧ em_parent e1 = Some parent
      ∧ em_parent e2 = Some parent
      ∧ trace_id (get_span_context parent)
        = trace_id (get_span_context sample_span).
Proof.
  assert (live sample_span) as Hlive.
  { unfold live, is_valid, sample_span. cbn. lia. }
  assert (extra_admissible "score" None) as H1 by (intros x Hx; discriminate Hx).
  assert (extra_admissible "ok" None) as H2 by (intros x Hx; discriminate Hx).
  assert (repr sample_float_repr sample_str_repr (VInt 7) = Ok "7") as Hr1
    by (apply (repr_int_printable _ _ 7); lia).
  assert (repr sample_float_repr sample_str_repr (VBool true) = Ok "True") as Hr2
    by reflexivity.
  split; [reflexivity|]. split; [exact Hlive|]. split; [exact H1|].
  split; [exact H2|]. split; [exact Hr1|]. split; [exact Hr2|].
  destruct (record_feedback_twice randomize_on upstream_message_key
              upstream_span_type_key sample_float_repr sample_str_repr
              (OfSpan sample_span) sample_span
              "score" (VInt 7) "7" None None
              "ok" (VBool true) "True" (Some "looks good") None
              sample_world eq_refl Hlive
              upstream_message_key_fresh upstream_span_type_key_fresh
              H1 H2 Hr1 Hr2)
    as (tp & e1 & e2 & w1 & w2 & parent & Htp & Hrun1 & Hrun2 & Hem & _ & _
        & Hp1 & Hp2 & Htid & _).
  - split; vm_compute; reflexivity.
  - split; vm_compute; reflexivity.
  - exists tp, e1, e2, w1, w2, parent.
    exact (conj Htp (conj Hrun1 (conj Hrun2 (conj Hem (conj Hp1 (conj Hp2 Htid)))))).
Defined.
